(** * A shallow embedding of [app.py]: the upload, extract, locate, build and
    deploy handler of the Flask server.

    The handler [upload_file] is embedded as a computation over an abstract
    operating system (filesystem, archive library, process launcher): each
    library call of the source is one operation of the class [OS], the world
    is threaded explicitly, exceptions are values, and every call leaves an
    event in a trace, so that statements such as "no external command was
    invoked" are statements about the trace.

    Conventions.
    - A Python [str] is a [string]: the bytes of its UTF-8 encoding. The
      comparison of the lowercased extension with [zip] needs the ASCII
      letters only ([Py.lower]); [str.lower] on a whole stem is the
      function [str_lower] of the class [PyStr], of which only its action
      on ASCII strings is fixed.
    - [os.path] is [posixpath] (separator [/]).
    - The captured output of a process is a [string] of bytes;
      [bytes.decode] is [Py.decode], which raises on bytes that are not
      well-formed UTF-8 and otherwise gives the same bytes back.

    Layout. The definitions come first: Python strings ([Py]), [os.path]
    ([OsPath]), the configuration and [allowed_file], the filesystem tree
    and [os.walk], the monad, the class [OS], the handler, a reference
    operating system ([Sim]) with a few uploads ([Demo], [Broken],
    [Other], [Stale], [Mixed]), and the notions the statements use. The theorems follow:
    strings and paths, the walk, the monad, the stages of the handler, and
    one theorem per claim:
    - C1 [upload_succeeds], C2 [invalid_request_rejected],
      C3 [extraction_error_propagates], C4 [missing_manifest_rejected],
      C5 [build_failure_reported], C6 [dockerfile_step_idempotent],
      C7 [names_follow_filename], C8 [removal_failure_swallowed],
      C9 [failed_build_keeps_container], C10 [filename_used_verbatim]. *)

From Stdlib Require Import String Ascii List ZArith Bool Lia.
Import ListNotations.
Set Warnings "-register-all".
Local Open Scope string_scope.

(** ** Python strings *)

Module Py.

(** The separator of [posixpath] and the extension separator. *)
Definition sep : ascii := "/"%char.
Definition extsep : ascii := "."%char.

(** [c in s] for a one-character [c]. *)
Fixpoint contains (c : ascii) (s : string) : bool :=
  match s with
  | EmptyString => false
  | String a s' => Ascii.eqb a c || contains c s'
  end.

(** [s.rsplit(c, 1)] when [c] occurs in [s]: the text before the last [c] and
    the text after it; [None] when [c] does not occur (Python then returns
    the one-element list [[s]]). *)
Fixpoint rsplit1 (c : ascii) (s : string) : option (string * string) :=
  match s with
  | EmptyString => None
  | String a s' =>
      match rsplit1 c s' with
      | Some (l, r) => Some (String a l, r)
      | None => if Ascii.eqb a c then Some (EmptyString, s') else None
      end
  end.

(** [s.rsplit(c, 1)[1]] guarded by [c in s]; the unguarded index raises
    [IndexError], which the guard of [allowed_file] excludes. *)
Definition rsplit1_snd (c : ascii) (s : string) : string :=
  match rsplit1 c s with
  | Some (_, r) => r
  | None => EmptyString
  end.

Definition lower_char (a : ascii) : ascii :=
  let n := nat_of_ascii a in
  if (65 <=? n)%nat && (n <=? 90)%nat then ascii_of_nat (n + 32) else a.

(** [s.lower()]. *)
Fixpoint lower (s : string) : string :=
  match s with
  | EmptyString => EmptyString
  | String a s' => String (lower_char a) (lower s')
  end.

(** [s.startswith(c)] and [s.endswith(c)] for a one-character [c]. *)
Definition startswith (c : ascii) (s : string) : bool :=
  match s with
  | EmptyString => false
  | String a _ => Ascii.eqb a c
  end.

Fixpoint endswith (c : ascii) (s : string) : bool :=
  match s with
  | EmptyString => false
  | String a EmptyString => Ascii.eqb a c
  | String _ s' => endswith c s'
  end.

(** [s == c * len(s)]: every character of [s] is [c]. *)
Fixpoint all_chars (c : ascii) (s : string) : bool :=
  match s with
  | EmptyString => true
  | String a s' => Ascii.eqb a c && all_chars c s'
  end.

(** [s.rstrip(c)]. *)
Fixpoint rstrip (c : ascii) (s : string) : string :=
  match s with
  | EmptyString => EmptyString
  | String a s' =>
      match rstrip c s' with
      | EmptyString => if Ascii.eqb a c then EmptyString else String a EmptyString
      | r => String a r
      end
  end.

(** [x in xs] for a collection of strings. *)
Definition mem (x : string) (xs : list string) : bool :=
  existsb (String.eqb x) xs.

(** Truth value of a [str]: non-empty. *)
Definition truthy (s : string) : bool :=
  match s with
  | EmptyString => false
  | String _ _ => true
  end.

(** [s.split(c)]: the pieces between the occurrences of [c]. *)
Fixpoint split (c : ascii) (s : string) : list string :=
  match s with
  | EmptyString => [EmptyString]
  | String a s' =>
      if Ascii.eqb a c then EmptyString :: split c s'
      else match split c s' with
           | [] => [String a EmptyString]
           | p :: ps => String a p :: ps
           end
  end.

(** Every byte is below 128. *)
Fixpoint is_ascii (s : string) : bool :=
  match s with
  | EmptyString => true
  | String a s' => (nat_of_ascii a <? 128)%nat && is_ascii s'
  end.

(** The byte [a] lies between [lo] and [hi]. *)
Definition between (lo hi : nat) (a : ascii) : bool :=
  (lo <=? nat_of_ascii a)%nat && (nat_of_ascii a <=? hi)%nat.

(** A continuation byte, 80 to BF. *)
Definition continuation (a : ascii) : bool := between 128 191 a.

(** The first two bytes of a well-formed sequence of three. *)
Definition lead3 (a b : ascii) : bool :=
  (between 224 224 a && between 160 191 b)
  || (between 225 236 a && continuation b)
  || (between 237 237 a && between 128 159 b)
  || (between 238 239 a && continuation b).

(** The first two bytes of a well-formed sequence of four. *)
Definition lead4 (a b : ascii) : bool :=
  (between 240 240 a && between 144 191 b)
  || (between 241 243 a && continuation b)
  || (between 244 244 a && between 128 143 b).

(** Well-formed UTF-8, as the strict decoder of Python accepts it: one
    byte 00 to 7F; two bytes from C2 to DF; three bytes without overlong
    forms and surrogates; four bytes up to U+10FFFF. *)
Fixpoint utf8_valid (s : string) : bool :=
  match s with
  | EmptyString => true
  | String a s1 =>
      if between 0 127 a then utf8_valid s1
      else
        match s1 with
        | EmptyString => false
        | String b s2 =>
            if between 194 223 a then continuation b && utf8_valid s2
            else
              match s2 with
              | EmptyString => false
              | String c s3 =>
                  if lead3 a b then continuation c && utf8_valid s3
                  else
                    match s3 with
                    | EmptyString => false
                    | String d s4 =>
                        lead4 a b && continuation c && continuation d
                        && utf8_valid s4
                    end
              end
        end
  end.

(** [b.decode()], UTF-8 and strict: the text (the same bytes, as a [str] is
    kept by its encoding), or [None] where Python raises
    [UnicodeDecodeError]. *)
Definition decode (b : string) : option string :=
  if utf8_valid b then Some b else None.

End Py.

(** [str.lower]. Its tables are those of Unicode and are not written out:
    the function is a parameter, known to act on an ASCII string as
    [Py.lower] does. *)
Class PyStr : Type := {
  str_lower : string -> string;
  str_lower_ascii : forall s, Py.is_ascii s = true -> str_lower s = Py.lower s
}.

(** ** [os.path] (posixpath) *)

Module OsPath.

(** [os.path.join(a, b)], two arguments as at every call of the source: an
    absolute [b] replaces [a]; otherwise [b] is appended, with a separator
    unless [a] is empty or already ends with one. *)
Definition join (a b : string) : string :=
  if Py.startswith Py.sep b then b
  else if negb (Py.truthy a) || Py.endswith Py.sep a then a ++ b
  else a ++ String Py.sep b.

(** [p[:p.rfind(sep) + 1]]: the text up to and including the last separator. *)
Definition head_to_last_sep (p : string) : string :=
  match Py.rsplit1 Py.sep p with
  | Some (l, _) => l ++ String Py.sep EmptyString
  | None => EmptyString
  end.

(** [p[p.rfind(sep) + 1:]]: the text after the last separator. *)
Definition tail_from_last_sep (p : string) : string :=
  match Py.rsplit1 Py.sep p with
  | Some (_, r) => r
  | None => p
  end.

(** [os.path.dirname(p)]: the head, with trailing separators stripped unless
    the head consists of separators only. *)
Definition dirname (p : string) : string :=
  let head := head_to_last_sep p in
  if Py.truthy head && negb (Py.all_chars Py.sep head)
  then Py.rstrip Py.sep head
  else head.

(** [os.path.splitext(p)]: the extension starts at the last dot of the last
    component, unless only dots precede it there (leading dots belong to
    the root: [".zip"] has no extension). *)
Definition splitext (p : string) : string * string :=
  match Py.rsplit1 Py.extsep (tail_from_last_sep p) with
  | Some (stem, ext) =>
      if Py.all_chars Py.extsep stem then (p, EmptyString)
      else (head_to_last_sep p ++ stem, String Py.extsep ext)
  | None => (p, EmptyString)
  end.

End OsPath.

(** ** Configuration (module level of [app.py]) *)

Definition UPLOAD_FOLDER : string := "./uploads".
Definition BUILD_FOLDER : string := "./builds".
Definition ALLOWED_EXTENSIONS : list string := ["zip"].

(** [allowed_file]: the name contains a dot and the text after its last dot,
    lowercased, is an allowed extension. *)
Definition allowed_file (filename : string) : bool :=
  Py.contains Py.extsep filename
  && Py.mem (Py.lower (Py.rsplit1_snd Py.extsep filename)) ALLOWED_EXTENSIONS.

(** ** The filesystem as the handler reads it *)

(** A filesystem object: a regular file with its content, or a directory
    with its entries in listing order. *)
Inductive node : Type :=
| File (content : string)
| Dir (entries : list (string * node)).

Definition is_dir (n : node) : bool :=
  match n with
  | Dir _ => true
  | File _ => false
  end.

(** The two name lists [os.walk] builds from one directory listing. *)
Definition dirnames (es : list (string * node)) : list string :=
  map fst (filter (fun e => is_dir (snd e)) es).

Definition filenames (es : list (string * node)) : list string :=
  map fst (filter (fun e => negb (is_dir (snd e))) es).

(** [os.walk(top)], top-down: the triple of [top] first, then the walk of
    each sub-directory in listing order under [join(top, name)]. A [top]
    that is not a directory yields nothing. *)
Fixpoint walk (top : string) (n : node) {struct n}
  : list (string * list string * list string) :=
  match n with
  | File _ => []
  | Dir es =>
      (top, dirnames es, filenames es) ::
      (fix walk_entries (l : list (string * node)) :=
         match l with
         | [] => []
         | (name, sub) :: l' =>
             (walk (OsPath.join top name) sub ++ walk_entries l')%list
         end) es
  end.

(** The loop of [find_file] over the triples of a walk: the first directory
    whose file list holds [filename] decides. *)
Fixpoint find_file_loop (filename : string)
    (triples : list (string * list string * list string)) : option string :=
  match triples with
  | [] => None
  | (root, _, files) :: rest =>
      if Py.mem filename files then Some (OsPath.join root filename)
      else find_file_loop filename rest
  end.

(** ** Effects: events, exceptions and the handler monad *)

Inductive level : Type := INFO | ERROR.

(** The result of a finished process, as [subprocess.run] returns it with
    both streams piped. *)
Record completed : Type := mkCompleted {
  returncode : Z;
  stdout : string;
  stderr : string
}.

(** Exceptions that cross the handler: the one [subprocess.run(check=True)]
    raises on a non-zero exit, and any exception a library call raises
    ([OSError], [shutil.ReadError], [zipfile.BadZipFile],
    [UnicodeDecodeError], ...), by name. *)
Inductive exn : Type :=
| CalledProcessError (rc : Z) (cmd : list string) (out err : string)
| LibraryError (name : string).

(** One entry per library call of the handler, in program order. *)
Inductive event : Type :=
| EvSave (dst : string)
| EvUnpack (archive target : string)
| EvWalk (root : string)
| EvExists (path : string)
| EvWrite (path content : string)
| EvRun (argv : list string)
| EvLog (lvl : level) (text : string)
| EvLogExc (lvl : level) (prefix : string) (e : exn).

(** The command lines launched, in order. *)
Fixpoint commands (t : list event) : list (list string) :=
  match t with
  | [] => []
  | EvRun argv :: t' => argv :: commands t'
  | _ :: t' => commands t'
  end.

(** The Dockerfile-style writes [open(path, 'w')] made, in order. *)
Fixpoint writes (t : list event) : list (string * string) :=
  match t with
  | [] => []
  | EvWrite p c :: t' => (p, c) :: writes t'
  | _ :: t' => writes t'
  end.

(** What a library call gives back: a value, or a raised exception. *)
Inductive sys (A : Type) : Type :=
| Done (a : A)
| Failed (exc_name : string).
Arguments Done {A} a.
Arguments Failed {A} exc_name.

(** The operating system under the handler. [W] is the state of the world
    (filesystem, container runtime), [B] the byte stream of an upload. *)
Class OS (W B : Type) : Type := {
  (** [FileStorage.save(dst)] *)
  storage_save : B -> string -> W -> sys unit * W;
  (** [shutil.unpack_archive(archive, target)] *)
  unpack_archive : string -> string -> W -> sys unit * W;
  (** the filesystem object at a path, if there is one *)
  lookup : string -> W -> option node;
  (** [open(path, 'w')] followed by [write(content)] and close *)
  open_write : string -> string -> W -> sys unit * W;
  (** launch a command line and wait for it, both streams captured *)
  spawn : list string -> W -> sys completed * W
}.

Inductive res (A : Type) : Type :=
| Val (a : A)
| Exc (e : exn).
Arguments Val {A} a.
Arguments Exc {A} e.

(** State (the world), exceptions and a trace of events. *)
Definition M (W A : Type) : Type := W -> res A * W * list event.

Definition ret {W A : Type} (a : A) : M W A :=
  fun w => (Val a, w, []).

(** The outcome [x] of a continuation, with the events [t] that came
    before it put in front of its trace. *)
Definition prepend {W A : Type} (t : list event) (x : res A * W * list event)
  : res A * W * list event :=
  match x with
  | (r, w, t') => (r, w, (t ++ t')%list)
  end.

Definition bind {W A C : Type} (m : M W A) (k : A -> M W C) : M W C :=
  fun w =>
    match m w with
    | (Val a, w1, t1) => prepend t1 (k a w1)
    | (Exc e, w1, t1) => (Exc e, w1, t1)
    end.

Definition emit {W : Type} (ev : event) : M W unit :=
  fun w => (Val tt, w, [ev]).

Definition raise {W A : Type} (e : exn) : M W A :=
  fun w => (Exc e, w, []).

(** A library call that changes the world: its event, then its result. *)
Definition call {W A : Type} (ev : event) (op : W -> sys A * W) : M W A :=
  fun w =>
    match op w with
    | (Done a, w1) => (Val a, w1, [ev])
    | (Failed n, w1) => (Exc (LibraryError n), w1, [ev])
    end.

(** A library call that only reads the world. *)
Definition query {W A : Type} (ev : event) (f : W -> A) : M W A :=
  fun w => (Val (f w), w, [ev]).

(** [try: m  except <class> as e: h e]: [h] answers [None] for an exception
    outside the caught class, which then propagates. *)
Definition try_except {W A : Type} (m : M W A) (h : exn -> option (M W A))
  : M W A :=
  fun w =>
    match m w with
    | (Val a, w1, t1) => (Val a, w1, t1)
    | (Exc e, w1, t1) =>
        match h e with
        | Some k => prepend t1 (k w1)
        | None => (Exc e, w1, t1)
        end
    end.

Declare Scope py_scope.
Delimit Scope py_scope with py.
Notation "x <- m ;; k" := (bind m (fun x => k))
  (at level 61, m at next level, right associativity) : py_scope.
Notation "m ;; k" := (bind m (fun _ => k))
  (at level 61, right associativity) : py_scope.

(** ** The request and the response *)

(** A [werkzeug] [FileStorage]: the client's filename and the byte stream. *)
Record FileStorage (B : Type) : Type := mkFileStorage {
  filename : string;
  stream : B
}.
Arguments mkFileStorage {B} filename stream.
Arguments filename {B} f.
Arguments stream {B} f.

(** [request.files]: the file fields of the form, by field name. *)
Record Request (B : Type) : Type := mkRequest {
  files : list (string * FileStorage B)
}.
Arguments mkRequest {B} files.
Arguments files {B} r.

(** [request.files['file']] guarded by ['file' in request.files]. *)
Fixpoint files_get {B : Type} (key : string) (fs : list (string * FileStorage B))
  : option (FileStorage B) :=
  match fs with
  | [] => None
  | (k, f) :: fs' => if String.eqb k key then Some f else files_get key fs'
  end.

(** [bool(file)] of a [FileStorage] is [bool(file.filename)]. *)
Definition file_truthy {B : Type} (f : FileStorage B) : bool :=
  Py.truthy (filename f).

(** [jsonify(dict), status]: the JSON object as its key and value pairs. *)
Definition Response : Type := list (string * string) * Z.

Definition nl : string := String (ascii_of_nat 10) EmptyString.
Definition dquote : string := String (ascii_of_nat 34) EmptyString.
Definition indent16 : string := "                ".

(** The text written by [dockerfile.write]: the triple-quoted literal of the
    source, with its leading newline and the indentation of the source. *)
Definition DEFAULT_DOCKERFILE : string :=
  nl ++ indent16 ++ "FROM node:16"
  ++ nl ++ indent16 ++ "WORKDIR /app"
  ++ nl ++ indent16 ++ "COPY package*.json ./"
  ++ nl ++ indent16 ++ "RUN npm install"
  ++ nl ++ indent16 ++ "COPY . ."
  ++ nl ++ indent16 ++ "EXPOSE 3000"
  ++ nl ++ indent16 ++ "CMD [" ++ dquote ++ "npm" ++ dquote ++ ", "
                               ++ dquote ++ "start" ++ dquote ++ "]"
  ++ nl ++ indent16.

(** [not x] for the [Optional[str]] that [find_file] returns. *)
Definition py_not (x : option string) : bool :=
  match x with
  | None => true
  | Some s => negb (Py.truthy s)
  end.

(** The [str] behind an [Optional[str]] that passed the [not] test. *)
Definition the_str (x : option string) : string :=
  match x with
  | Some s => s
  | None => EmptyString
  end.

(** ** The handler *)

Section Handler.

Context {W B : Type} {os : OS W B} {py : PyStr}.
Local Open Scope py_scope.

Definition logging_info (text : string) : M W unit := emit (EvLog INFO text).
Definition logging_error (text : string) : M W unit := emit (EvLog ERROR text).

(** [os.walk(root_path)], read off the world in one go (the generator only
    reads). *)
Definition os_walk (root_path : string) : M W (list (string * list string * list string)) :=
  query (EvWalk root_path)
        (fun w => match lookup root_path w with
                  | Some n => walk root_path n
                  | None => []
                  end).

(** [find_file(root_path, filename)]. *)
Definition find_file (root_path filename : string) : M W (option string) :=
  triples <- os_walk root_path ;;
  ret (find_file_loop filename triples).

(** [os.path.exists(path)]. *)
Definition os_path_exists (path : string) : M W bool :=
  query (EvExists path)
        (fun w => match lookup path w with Some _ => true | None => false end).

(** [subprocess.run(argv, check=..., stdout=PIPE, stderr=PIPE)]. *)
Definition subprocess_run (argv : list string) (check : bool) : M W completed :=
  p <- call (EvRun argv) (spawn argv) ;;
  if check && negb (returncode p =? 0)%Z
  then raise (CalledProcessError (returncode p) argv (stdout p) (stderr p))
  else ret p.

(** Lines 61 to 74: make sure a Dockerfile stands next to the manifest. *)
Definition ensure_dockerfile (dockerfile_path : string) : M W unit :=
  present <- os_path_exists dockerfile_path ;;
  if negb present then
    call (EvWrite dockerfile_path DEFAULT_DOCKERFILE)
         (open_write dockerfile_path DEFAULT_DOCKERFILE) ;;
    logging_info ("Dockerfile created at " ++ dockerfile_path)
  else ret tt.

(** Lines 77 and 78. *)
Definition image_name (fname : string) : string :=
  str_lower (fst (OsPath.splitext fname)) ++ "-image".

Definition container_name (fname : string) : string :=
  str_lower (fst (OsPath.splitext fname)) ++ "-container".

(** [b.decode()] in the handler: the text, or [UnicodeDecodeError]. *)
Definition bytes_decode (b : string) : M W string :=
  match Py.decode b with
  | Some text => ret text
  | None => raise (LibraryError "UnicodeDecodeError")
  end.

Definition build_argv (fname package_json_path : string) : list string :=
  ["docker"; "build"; "-t"; image_name fname; OsPath.dirname package_json_path].

Definition rm_argv (fname : string) : list string :=
  ["docker"; "rm"; "-f"; container_name fname].

Definition run_argv (fname : string) : list string :=
  ["docker"; "run"; "-d"; "--name"; container_name fname; "-p"; "3000:3000";
   image_name fname].

(** Lines 80 to 112: build, remove the old container, run; a
    [CalledProcessError] of a checked command becomes the 500 response. The
    captured streams are decoded where the source decodes them: each
    f-string is evaluated, and may raise, before its logging call or its
    [jsonify]. *)
Definition build_and_run (fname package_json_path : string) : M W Response :=
  try_except
    (build_process <- subprocess_run (build_argv fname package_json_path) true ;;
     build_out <- bytes_decode (stdout build_process) ;;
     logging_info ("Docker Build Output: " ++ build_out) ;;
     build_err <- bytes_decode (stderr build_process) ;;
     logging_error ("Docker Build Error: " ++ build_err) ;;
     subprocess_run (rm_argv fname) false ;;
     run_process <- subprocess_run (run_argv fname) true ;;
     run_out <- bytes_decode (stdout run_process) ;;
     logging_info ("Docker Run Output: " ++ run_out) ;;
     run_err <- bytes_decode (stderr run_process) ;;
     logging_error ("Docker Run Error: " ++ run_err) ;;
     ret ([("message", "File uploaded and Docker container started successfully");
           ("docker_image", image_name fname);
           ("docker_container", container_name fname)], 200%Z))
    (fun e =>
       match e with
       | CalledProcessError _ _ _ err =>
           Some (emit (EvLogExc ERROR "Subprocess Error: " e) ;;
                 text <- bytes_decode err ;;
                 ret ([("error", "Docker error: " ++ text)], 500%Z))
       | LibraryError _ => None
       end).

(** [upload_file], the view function of [POST /upload]. *)
Definition upload_file (request : Request B) : M W Response :=
  match files_get "file" (files request) with
  | None => ret ([("error", "No file part in the request")], 400%Z)
  | Some file =>
      if String.eqb (filename file) EmptyString then
        ret ([("error", "No selected file")], 400%Z)
      else if file_truthy file && allowed_file (filename file) then
        let filepath := OsPath.join UPLOAD_FOLDER (filename file) in
        call (EvSave filepath) (storage_save (stream file) filepath) ;;
        logging_info ("File saved at " ++ filepath) ;;
        let extract_path :=
          OsPath.join BUILD_FOLDER (fst (OsPath.splitext (filename file))) in
        call (EvUnpack filepath extract_path) (unpack_archive filepath extract_path) ;;
        logging_info ("File extracted to " ++ extract_path) ;;
        found <- find_file extract_path "package.json" ;;
        if py_not found then
          ret ([("error", "package.json not found in the extracted ZIP.")], 400%Z)
        else
          let package_json_path := the_str found in
          let dockerfile_path :=
            OsPath.join (OsPath.dirname package_json_path) "Dockerfile" in
          ensure_dockerfile dockerfile_path ;;
          build_and_run (filename file) package_json_path
      else
        ret ([("error", "Invalid file format. Only .zip files are allowed.")], 400%Z)
  end.

End Handler.

(** ** Paths read component by component *)

Module Lexical.

(** The components of a path, without the empty and the [.] ones. *)
Definition parts (p : string) : list string :=
  filter (fun c => negb (String.eqb c EmptyString) && negb (String.eqb c "."))
         (Py.split Py.sep p).

(** Resolve [..] against the components seen so far ([acc], innermost
    first); the parent of the root is the root. *)
Fixpoint norm (acc : list string) (cs : list string) : list string :=
  match cs with
  | [] => rev acc
  | c :: cs' =>
      if String.eqb c ".." then norm (tl acc) cs' else norm (c :: acc) cs'
  end.

(** The absolute components of [p] seen from the directory [cwd]. *)
Definition resolve (cwd : list string) (p : string) : list string :=
  if Py.startswith Py.sep p then norm [] (parts p)
  else norm (rev cwd) (parts p).

End Lexical.

(** ** A reference operating system

    An in-memory filesystem tree with a current directory, a toy archive
    format and a small container runtime. It instantiates [OS], so that the
    handler can be run on concrete uploads. *)

Module Sim.

Definition assoc (k : string) (es : list (string * node)) : option node :=
  match find (fun e => String.eqb (fst e) k) es with
  | Some e => Some (snd e)
  | None => None
  end.

(** Replace the entry [k] in place, or add it at the end of the listing. *)
Fixpoint set (k : string) (v : node) (es : list (string * node))
  : list (string * node) :=
  match es with
  | [] => [(k, v)]
  | (k', v') :: es' =>
      if String.eqb k' k then (k, v) :: es' else (k', v') :: set k v es'
  end.

Fixpoint get (path : list string) (n : node) : option node :=
  match path with
  | [] => Some n
  | c :: path' =>
      match n with
      | Dir es =>
          match assoc c es with
          | Some sub => get path' sub
          | None => None
          end
      | File _ => None
      end
  end.

(** [open(path, 'w')] and write: the parent must be a directory and the
    target must not be one. *)
Fixpoint put (path : list string) (content : string) (n : node) : option node :=
  match path with
  | [] => None
  | c :: path' =>
      match n with
      | File _ => None
      | Dir es =>
          match path' with
          | [] =>
              match assoc c es with
              | Some (Dir _) => None
              | _ => Some (Dir (set c (File content) es))
              end
          | _ :: _ =>
              match assoc c es with
              | Some sub =>
                  match put path' content sub with
                  | Some sub' => Some (Dir (set c sub' es))
                  | None => None
                  end
              | None => None
              end
          end
      end
  end.

(** [os.makedirs(path, exist_ok=True)]. *)
Fixpoint mkdirs (path : list string) (n : node) : option node :=
  match path with
  | [] => if is_dir n then Some n else None
  | c :: path' =>
      match n with
      | File _ => None
      | Dir es =>
          let sub := match assoc c es with
                     | Some s => s
                     | None => Dir []
                     end in
          match mkdirs path' sub with
          | Some sub' => Some (Dir (set c sub' es))
          | None => None
          end
      end
  end.

(** The toy archive: the magic [PK], then member names and member contents
    in turn, fields separated by a bar. Anything else is malformed. *)
Fixpoint pair_up (fields : list string) : option (list (string * string)) :=
  match fields with
  | [] => Some []
  | name :: content :: rest =>
      match pair_up rest with
      | Some ms => Some ((name, content) :: ms)
      | None => None
      end
  | [_] => None
  end.

Definition decode (bytes : string) : option (list (string * string)) :=
  match Py.split "|"%char bytes with
  | magic :: fields => if String.eqb magic "PK" then pair_up fields else None
  | [] => None
  end.

(** [".." in name]. *)
Fixpoint has_dotdot (s : string) : bool :=
  match s with
  | String a ((String b _) as s') =>
      (Ascii.eqb a "."%char && Ascii.eqb b "."%char) || has_dotdot s'
  | _ => false
  end.

(** [name.endswith(suffix)]. *)
Definition ends_with (suffix s : string) : bool :=
  let n := String.length s in
  let k := String.length suffix in
  (k <=? n)%nat && String.eqb (substring (n - k) k s) suffix.

Record world : Type := mkWorld {
  cwd : list string;
  root : node;
  daemon_up : bool;
  images : list string;
  containers : list string
}.

Definition with_root (w : world) (r : node) : world :=
  mkWorld (cwd w) r (daemon_up w) (images w) (containers w).

Definition sim_lookup (p : string) (w : world) : option node :=
  get (Lexical.resolve (cwd w) p) (root w).

Definition sim_write (p content : string) (w : world) : sys unit * world :=
  match put (Lexical.resolve (cwd w) p) content (root w) with
  | Some r => (Done tt, with_root w r)
  | None => (Failed "OSError", w)
  end.

(** One member of an archive, as the zip unpacker of [shutil] treats it:
    absolute names and names with [..] are skipped, a name that ends with
    the separator is a directory, the parents of a file are created. *)
Definition extract_member (target : list string) (m : string * string)
    (r : node) : option node :=
  let (name, content) := m in
  if Py.startswith Py.sep name || has_dotdot name then Some r
  else
    let path := (target ++ Lexical.parts name)%list in
    if Py.endswith Py.sep name then mkdirs path r
    else
      match mkdirs (removelast path) r with
      | Some r1 => put path content r1
      | None => None
      end.

Fixpoint extract_all (target : list string) (ms : list (string * string))
    (r : node) : option node :=
  match ms with
  | [] => Some r
  | m :: ms' =>
      match extract_member target m r with
      | Some r1 => extract_all target ms' r1
      | None => None
      end
  end.

(** [shutil.unpack_archive]: the format is read off the file name (only
    the zip format is registered here), the content must decode, and the
    members are extracted under the target in turn. *)
Definition sim_unpack (archive target : string) (w : world) : sys unit * world :=
  if negb (ends_with ".zip" archive) then (Failed "ReadError", w)
  else
    match sim_lookup archive w with
    | Some (File bytes) =>
        match decode bytes with
        | Some ms =>
            match extract_all (Lexical.resolve (cwd w) target) ms (root w) with
            | Some r1 => (Done tt, with_root w r1)
            | None => (Failed "OSError", w)
            end
        | None => (Failed "ReadError", w)
        end
    | _ => (Failed "ReadError", w)
    end.

Definition failed_process (code : Z) (msg : string) : completed :=
  mkCompleted code EmptyString msg.

(** The container runtime: an image store and the running containers, all
    of which publish host port 3000. *)
Definition sim_spawn (argv : list string) (w : world) : sys completed * world :=
  match argv with
  | ["docker"; "build"; "-t"; img; ctx] =>
      if negb (daemon_up w) then
        (Done (failed_process 1 "Cannot connect to the Docker daemon"), w)
      else
        match sim_lookup (OsPath.join ctx "Dockerfile") w with
        | Some (File EmptyString) =>
            (Done (failed_process 1 "the Dockerfile (Dockerfile) cannot be empty"), w)
        | Some (File _) =>
            (Done (mkCompleted 0 ("Successfully tagged " ++ img) EmptyString),
             mkWorld (cwd w) (root w) (daemon_up w) (img :: images w) (containers w))
        | _ => (Done (failed_process 1 "failed to read dockerfile"), w)
        end
  | ["docker"; "rm"; "-f"; name] =>
      if negb (daemon_up w) then
        (Done (failed_process 1 "Cannot connect to the Docker daemon"), w)
      else if Py.mem name (containers w) then
        (Done (mkCompleted 0 name EmptyString),
         mkWorld (cwd w) (root w) (daemon_up w) (images w)
                 (filter (fun c => negb (String.eqb c name)) (containers w)))
      else (Done (failed_process 1 ("Error: No such container: " ++ name)), w)
  | ["docker"; "run"; "-d"; "--name"; name; "-p"; "3000:3000"; img] =>
      if negb (daemon_up w) then
        (Done (failed_process 125 "Cannot connect to the Docker daemon"), w)
      else if negb (Py.mem img (images w)) then
        (Done (failed_process 125 ("Unable to find image " ++ img)), w)
      else if Py.mem name (containers w) then
        (Done (failed_process 125 ("Conflict. The container name is already in use")), w)
      else
        match containers w with
        | _ :: _ => (Done (failed_process 125 "port is already allocated"), w)
        | [] =>
            (Done (mkCompleted 0 name EmptyString),
             mkWorld (cwd w) (root w) (daemon_up w) (images w) [name])
        end
  | "docker" :: _ => (Done (failed_process 1 "unknown command"), w)
  | _ => (Failed "FileNotFoundError", w)
  end.

#[global] Instance sim_os : OS world string := {
  storage_save := fun bytes dst w => sim_write dst bytes w;
  unpack_archive := sim_unpack;
  lookup := sim_lookup;
  open_write := sim_write;
  spawn := sim_spawn
}.

(** The server's directory after start-up: [os.makedirs] has created the
    two folders. *)
Definition fresh : world :=
  mkWorld ["srv"; "app"]
          (Dir [("srv", Dir [("app", Dir [("uploads", Dir []); ("builds", Dir [])])]);
                ("etc", Dir [])])
          true [] [].

(** The same server with a container of an earlier upload of [x.zip]
    running. *)
Definition busy : world :=
  mkWorld (cwd fresh) (root fresh) true ["x-image"] ["x-container"].

End Sim.

(** ** Uploads on the reference operating system *)

Module Demo.

(** [demo.zip]: a project two directories down, without a Dockerfile. *)
Definition file : FileStorage string :=
  mkFileStorage "demo.zip" "PK|sub/pkg/package.json|{}|sub/pkg/index.js|x".
Definition request : Request string := mkRequest [("file", file)].

(** The worlds the run goes through: saved, unpacked, Dockerfile written,
    image built, old container removed (there was none), container
    started. *)
Definition saved : Sim.world :=
  Eval vm_compute in
    snd (storage_save (stream file) "./uploads/demo.zip" Sim.fresh).
Definition unpacked : Sim.world :=
  Eval vm_compute in
    snd (unpack_archive "./uploads/demo.zip" "./builds/demo" saved).
Definition tree : node :=
  Dir [("sub", Dir [("pkg", Dir [("package.json", File "{}");
                                 ("index.js", File "x")])])].
Definition described : Sim.world :=
  Eval vm_compute in
    snd (open_write "./builds/demo/sub/pkg/Dockerfile" DEFAULT_DOCKERFILE unpacked).
Definition built : Sim.world :=
  Eval vm_compute in
    snd (spawn ["docker"; "build"; "-t"; "demo-image"; "./builds/demo/sub/pkg"]
               described).
Definition running : Sim.world :=
  Eval vm_compute in
    snd (spawn ["docker"; "run"; "-d"; "--name"; "demo-container"; "-p";
                "3000:3000"; "demo-image"] built).

(** A second [demo.zip], with its manifest at the top of the archive. *)
Definition flat_file : FileStorage string :=
  mkFileStorage "demo.zip" "PK|package.json|{}".
Definition flat_request : Request string := mkRequest [("file", flat_file)].

Definition build_result : completed :=
  mkCompleted 0 "Successfully tagged demo-image" EmptyString.
Definition rm_result : completed :=
  mkCompleted 1 EmptyString "Error: No such container: demo-container".
Definition run_result : completed :=
  mkCompleted 0 "demo-container" EmptyString.

End Demo.

Module Broken.

(** [x.zip]: a project that ships an empty Dockerfile, uploaded while the
    container of an earlier upload of the same name is running. *)
Definition file : FileStorage string :=
  mkFileStorage "x.zip" "PK|package.json|{}|Dockerfile|".
Definition request : Request string := mkRequest [("file", file)].

Definition saved : Sim.world :=
  Eval vm_compute in
    snd (storage_save (stream file) "./uploads/x.zip" Sim.busy).
Definition unpacked : Sim.world :=
  Eval vm_compute in
    snd (unpack_archive "./uploads/x.zip" "./builds/x" saved).
Definition tree : node :=
  Dir [("package.json", File "{}"); ("Dockerfile", File EmptyString)].
Definition build_result : completed :=
  mkCompleted 1 EmptyString "the Dockerfile (Dockerfile) cannot be empty".

End Broken.

Module Other.

(** [bad.zip]: bytes that are no archive. [noapp.zip]: an archive without a
    manifest. [bad.txt]: not an archive name. [../x.zip]: a name that
    climbs out of the folder it is joined to. *)
Definition bad_file : FileStorage string :=
  mkFileStorage "bad.zip" "not an archive".
Definition bad : Request string := mkRequest [("file", bad_file)].
Definition bad_saved : Sim.world :=
  Eval vm_compute in
    snd (storage_save (stream bad_file) "./uploads/bad.zip" Sim.fresh).

Definition noapp_file : FileStorage string :=
  mkFileStorage "noapp.zip" "PK|a/b.txt|x".
Definition noapp : Request string := mkRequest [("file", noapp_file)].
Definition noapp_saved : Sim.world :=
  Eval vm_compute in
    snd (storage_save (stream noapp_file) "./uploads/noapp.zip" Sim.fresh).
Definition noapp_unpacked : Sim.world :=
  Eval vm_compute in
    snd (unpack_archive "./uploads/noapp.zip" "./builds/noapp" noapp_saved).

Definition text : Request string :=
  mkRequest [("file", mkFileStorage "bad.txt" "hello")].

Definition climbing_file : FileStorage string :=
  mkFileStorage "../x.zip" "PK|package.json|{}".
Definition climbing : Request string := mkRequest [("file", climbing_file)].
Definition climbing_saved : Sim.world :=
  Eval vm_compute in
    snd (storage_save (stream climbing_file) "./uploads/../x.zip" Sim.fresh).

End Other.

(** ** Notions the statements use *)

(** A name with the accepted extension, compared without regard to case:
    some stem, a dot, and an extension that lowercases to [zip]. *)
Definition has_accepted_extension (fname : string) : Prop :=
  exists stem ext : string,
    fname = stem ++ String Py.extsep ext /\ Py.lower ext = "zip".

(** A regular file called [name] somewhere in the tree [n], at any depth. *)
Fixpoint contains_file (name : string) (n : node) {struct n} : bool :=
  match n with
  | File _ => false
  | Dir es =>
      Py.mem name (filenames es)
      || (fix any_entry (l : list (string * node)) :=
            match l with
            | [] => false
            | (_, sub) :: l' => contains_file name sub || any_entry l'
            end) es
  end.

(** [l] is an initial segment of [l']. *)
Fixpoint is_prefix (l l' : list string) : bool :=
  match l, l' with
  | [], _ => true
  | _ :: _, [] => false
  | a :: l1, b :: l1' => String.eqb a b && is_prefix l1 l1'
  end.

(** The path [p] names something inside the directory [folder], both seen
    from the directory [cwd]: after [.] and [..] are resolved, the
    components of [folder] start those of [p]. *)
Definition lies_inside (cwd : list string) (folder p : string) : bool :=
  is_prefix (Lexical.resolve cwd folder) (Lexical.resolve cwd p).

(** Where [upload_file] saves an upload and where it unpacks it. *)
Definition save_path (fname : string) : string :=
  OsPath.join UPLOAD_FOLDER fname.

Definition extract_dir (fname : string) : string :=
  OsPath.join BUILD_FOLDER (fst (OsPath.splitext fname)).

(** The Dockerfile path and the build context derived from a located
    manifest, as lines 62 and 83 do. *)
Definition dockerfile_of (package_json_path : string) : string :=
  OsPath.join (OsPath.dirname package_json_path) "Dockerfile".

(** The response bodies the statements name. *)
Definition success_body {py : PyStr} (fname : string) : list (string * string) :=
  [("message", "File uploaded and Docker container started successfully");
   ("docker_image", image_name fname);
   ("docker_container", container_name fname)].

Definition error_body (msg : string) : list (string * string) :=
  [("error", msg)].

(** The response is a client-fault (400) error object. *)
Definition is_client_fault (r : res Response) : bool :=
  match r with
  | Val ([(k, _)], status) => String.eqb k "error" && (status =? 400)%Z
  | _ => false
  end.

(** Two runs of the Dockerfile step on the same path, one after the other. *)
Definition ensure_twice {W B : Type} {os : OS W B} (dockerfile_path : string)
  : M W unit :=
  bind (ensure_dockerfile dockerfile_path)
       (fun _ => ensure_dockerfile dockerfile_path).

(** The events of an accepted upload up to the search for the manifest. *)
Definition prefix_trace (fname : string) : list event :=
  [EvSave (save_path fname);
   EvLog INFO ("File saved at " ++ save_path fname);
   EvUnpack (save_path fname) (extract_dir fname);
   EvLog INFO ("File extracted to " ++ extract_dir fname);
   EvWalk (extract_dir fname)].

(** What [find_file(extract_path, 'package.json')] returns in the world [w]. *)
Definition manifest_at {W B : Type} {os : OS W B} (fname : string) (w : W)
  : option string :=
  find_file_loop "package.json"
    match lookup (extract_dir fname) w with
    | Some n => walk (extract_dir fname) n
    | None => []
    end.

(** The events of the Dockerfile step, by whether the file was there. *)
Definition ensure_trace (present : bool) (dockerfile_path : string) : list event :=
  EvExists dockerfile_path ::
  (if present then []
   else [EvWrite dockerfile_path DEFAULT_DOCKERFILE;
         EvLog INFO ("Dockerfile created at " ++ dockerfile_path)]).

(** [os.path.exists(path)] in the world [w]. *)
Definition exists_at {W B : Type} {os : OS W B} (path : string) (w : W) : bool :=
  match lookup path w with
  | Some _ => true
  | None => false
  end.

(** The Dockerfile step takes the world [w] to [w3]: nothing changes when
    the path exists, and otherwise the default text is written there. *)
Definition dockerfile_step {W B : Type} {os : OS W B} (path : string)
    (w w3 : W) : Prop :=
  if exists_at path w then w3 = w
  else open_write path DEFAULT_DOCKERFILE w = (Done tt, w3).

(** The exception of a [decode] that fails. *)
Definition UnicodeDecodeError : exn := LibraryError "UnicodeDecodeError".

(** The two streams of a finished command decoded and logged in turn, as
    lines 88, 89 and 101, 102 do: whether both decoded, and the log events
    made before the first failure. *)
Definition log_streams (label_out label_err : string) (c : completed)
  : bool * list event :=
  match Py.decode (stdout c) with
  | None => (false, [])
  | Some out =>
      match Py.decode (stderr c) with
      | None => (false, [EvLog INFO (label_out ++ out)])
      | Some err =>
          (true, [EvLog INFO (label_out ++ out); EvLog ERROR (label_err ++ err)])
      end
  end.

Definition build_decodes (b : completed) : bool :=
  fst (log_streams "Docker Build Output: " "Docker Build Error: " b).

Definition build_logs (b : completed) : list event :=
  snd (log_streams "Docker Build Output: " "Docker Build Error: " b).

(** What the [except] clause answers for a checked command that exited
    non-zero with [c]: the 500 object with the decoded standard error, or
    [UnicodeDecodeError] when it does not decode. *)
Definition docker_error (c : completed) : res Response :=
  match Py.decode (stderr c) with
  | Some text => Val (error_body ("Docker error: " ++ text), 500%Z)
  | None => Exc UnicodeDecodeError
  end.

(** The event of the [except] clause. *)
Definition docker_error_trace (argv : list string) (c : completed) : list event :=
  [EvLogExc ERROR "Subprocess Error: "
     (CalledProcessError (returncode c) argv (stdout c) (stderr c))].

(** What the handler answers once the run command has finished with
    [run_process]: it depends on nothing else. *)
Definition run_outcome {py : PyStr} (fname : string) (run_process : completed)
  : res Response :=
  if (returncode run_process =? 0)%Z then
    if fst (log_streams "Docker Run Output: " "Docker Run Error: " run_process)
    then Val (success_body fname, 200%Z)
    else Exc UnicodeDecodeError
  else docker_error run_process.

(** What the handler ends with once the run command is launched: the
    exception of the launch, or the answer to the finished command. *)
Definition launch_outcome {py : PyStr} (fname : string) (x : sys completed)
  : res Response :=
  match x with
  | Done run_process => run_outcome fname run_process
  | Failed n => Exc (LibraryError n)
  end.

(** The events after the run command has finished. *)
Definition run_logs {py : PyStr} (fname : string) (run_process : completed)
  : list event :=
  if (returncode run_process =? 0)%Z then
    snd (log_streams "Docker Run Output: " "Docker Run Error: " run_process)
  else docker_error_trace (run_argv fname) run_process.

(** The outcome, the final world and the trace of a run. *)
Definition outcome {W A : Type} (x : res A * W * list event) : res A := fst (fst x).
Definition final_world {W A : Type} (x : res A * W * list event) : W := snd (fst x).
Definition trace {W A : Type} (x : res A * W * list event) : list event := snd x.

(** The manifest [find_file] locates in the tree [tree] unpacked at [root]. *)
Definition located_manifest (root : string) (tree : node) : string :=
  the_str (find_file_loop "package.json" (walk root tree)).

(** The events of [build_and_run] when the build exits non-zero. *)
Definition build_failed_trace {py : PyStr} (fname pjp : string) (b : completed)
  : list event :=
  EvRun (build_argv fname pjp) :: docker_error_trace (build_argv fname pjp) b.

(** The events of [build_and_run] from the build to the removal, when the
    build exits zero and its output decodes. *)
Definition built_trace {py : PyStr} (fname pjp : string) (b : completed)
  : list event :=
  (EvRun (build_argv fname pjp) :: build_logs b ++ [EvRun (rm_argv fname)])%list.

(** The events of [build_and_run] when the build exits zero, its output
    decodes and the other two commands run to their end. *)
Definition deploy_trace {py : PyStr} (fname pjp : string) (b r : completed)
  : list event :=
  (built_trace fname pjp b ++ EvRun (run_argv fname) :: run_logs fname r)%list.

(** A request the handler turns down: no [file] field, an empty filename,
    or a filename without the accepted extension. *)
Definition rejected {B : Type} (request : Request B) : Prop :=
  match files_get "file" (files request) with
  | None => True
  | Some file =>
      filename file = EmptyString \/ ~ has_accepted_extension (filename file)
  end.

(** A directory path as [os.walk] hands it on: not empty, no trailing
    separator. *)
Definition regular (p : string) : bool :=
  Py.truthy p && negb (Py.endswith Py.sep p).

(** A name as a directory listing gives it: not empty, no separator. *)
Definition proper_name (s : string) : bool :=
  Py.truthy s && negb (Py.contains Py.sep s).

(** Every entry of the tree, at every depth, has a proper name. *)
Fixpoint proper_tree (n : node) {struct n} : bool :=
  match n with
  | File _ => true
  | Dir es =>
      (fix all_entries (l : list (string * node)) :=
         match l with
         | [] => true
         | (name, sub) :: l' =>
             proper_name name && proper_tree sub && all_entries l'
         end) es
  end.

(** ** The ways through the handler *)

(** The request carries a file with an accepted name, the file is saved
    ([w0] to [w1]) and unpacked ([w1] to [w2]). *)
Definition unpacked {W B : Type} {os : OS W B} (request : Request B)
    (file : FileStorage B) (w0 w1 w2 : W) : Prop :=
  files_get "file" (files request) = Some file
  /\ allowed_file (filename file) = true
  /\ storage_save (stream file) (save_path (filename file)) w0 = (Done tt, w1)
  /\ unpack_archive (save_path (filename file)) (extract_dir (filename file)) w1
     = (Done tt, w2).

(** The run stands before the build: unpacked, the manifest located at
    [pjp], the Dockerfile step done ([w2] to [w3]). *)
Definition at_build {W B : Type} {os : OS W B} (request : Request B)
    (file : FileStorage B) (w0 w2 w3 : W) (pjp : string) : Prop :=
  (exists w1, unpacked request file w0 w1 w2)
  /\ manifest_at (filename file) w2 = Some pjp
  /\ dockerfile_step (dockerfile_of pjp) w2 w3.

(** The events up to the build command. *)
Definition until_build {W B : Type} {os : OS W B} (fname pjp : string) (w2 : W)
  : list event :=
  (prefix_trace fname
   ++ ensure_trace (exists_at (dockerfile_of pjp) w2) (dockerfile_of pjp))%list.

(** Every run of [upload_file] takes one of these ways: one per [return]
    of the source and one per library call that can raise. *)
Inductive upload_path {W B : Type} {os : OS W B} {py : PyStr}
    (request : Request B) (w0 : W)
  : res Response * W * list event -> Prop :=
| path_no_field :
    files_get "file" (files request) = None ->
    upload_path request w0
      (Val (error_body "No file part in the request", 400%Z), w0, [])
| path_no_name (file : FileStorage B) :
    files_get "file" (files request) = Some file ->
    filename file = EmptyString ->
    upload_path request w0 (Val (error_body "No selected file", 400%Z), w0, [])
| path_bad_format (file : FileStorage B) :
    files_get "file" (files request) = Some file ->
    filename file <> EmptyString ->
    allowed_file (filename file) = false ->
    upload_path request w0
      (Val (error_body "Invalid file format. Only .zip files are allowed.", 400%Z),
       w0, [])
| path_save_raises (file : FileStorage B) (n : string) (w1 : W) :
    files_get "file" (files request) = Some file ->
    allowed_file (filename file) = true ->
    storage_save (stream file) (save_path (filename file)) w0 = (Failed n, w1) ->
    upload_path request w0
      (Exc (LibraryError n), w1, [EvSave (save_path (filename file))])
| path_unpack_raises (file : FileStorage B) (n : string) (w1 w2 : W) :
    files_get "file" (files request) = Some file ->
    allowed_file (filename file) = true ->
    storage_save (stream file) (save_path (filename file)) w0 = (Done tt, w1) ->
    unpack_archive (save_path (filename file)) (extract_dir (filename file)) w1
    = (Failed n, w2) ->
    upload_path request w0
      (Exc (LibraryError n), w2,
       [EvSave (save_path (filename file));
        EvLog INFO ("File saved at " ++ save_path (filename file));
        EvUnpack (save_path (filename file)) (extract_dir (filename file))])
| path_no_manifest (file : FileStorage B) (w1 w2 : W) :
    unpacked request file w0 w1 w2 ->
    manifest_at (filename file) w2 = None ->
    upload_path request w0
      (Val (error_body "package.json not found in the extracted ZIP.", 400%Z),
       w2, prefix_trace (filename file))
| path_write_raises (file : FileStorage B) (n pjp : string) (w1 w2 w3 : W) :
    unpacked request file w0 w1 w2 ->
    manifest_at (filename file) w2 = Some pjp ->
    exists_at (dockerfile_of pjp) w2 = false ->
    open_write (dockerfile_of pjp) DEFAULT_DOCKERFILE w2 = (Failed n, w3) ->
    upload_path request w0
      (Exc (LibraryError n), w3,
       (prefix_trace (filename file)
        ++ [EvExists (dockerfile_of pjp);
            EvWrite (dockerfile_of pjp) DEFAULT_DOCKERFILE])%list)
| path_build_raises (file : FileStorage B) (n pjp : string) (w2 w3 w4 : W) :
    at_build request file w0 w2 w3 pjp ->
    spawn (build_argv (filename file) pjp) w3 = (Failed n, w4) ->
    upload_path request w0
      (Exc (LibraryError n), w4,
       (until_build (filename file) pjp w2
        ++ [EvRun (build_argv (filename file) pjp)])%list)
| path_build_fails (file : FileStorage B) (pjp : string) (b : completed)
    (w2 w3 w4 : W) :
    at_build request file w0 w2 w3 pjp ->
    spawn (build_argv (filename file) pjp) w3 = (Done b, w4) ->
    returncode b <> 0%Z ->
    upload_path request w0
      (docker_error b, w4,
       (until_build (filename file) pjp w2
        ++ build_failed_trace (filename file) pjp b)%list)
| path_build_garbled (file : FileStorage B) (pjp : string) (b : completed)
    (w2 w3 w4 : W) :
    at_build request file w0 w2 w3 pjp ->
    spawn (build_argv (filename file) pjp) w3 = (Done b, w4) ->
    returncode b = 0%Z ->
    build_decodes b = false ->
    upload_path request w0
      (Exc UnicodeDecodeError, w4,
       (until_build (filename file) pjp w2
        ++ EvRun (build_argv (filename file) pjp) :: build_logs b)%list)
| path_rm_raises (file : FileStorage B) (n pjp : string) (b : completed)
    (w2 w3 w4 w5 : W) :
    at_build request file w0 w2 w3 pjp ->
    spawn (build_argv (filename file) pjp) w3 = (Done b, w4) ->
    returncode b = 0%Z ->
    build_decodes b = true ->
    spawn (rm_argv (filename file)) w4 = (Failed n, w5) ->
    upload_path request w0
      (Exc (LibraryError n), w5,
       (until_build (filename file) pjp w2
        ++ built_trace (filename file) pjp b)%list)
| path_run_raises (file : FileStorage B) (n pjp : string) (b k : completed)
    (w2 w3 w4 w5 w6 : W) :
    at_build request file w0 w2 w3 pjp ->
    spawn (build_argv (filename file) pjp) w3 = (Done b, w4) ->
    returncode b = 0%Z ->
    build_decodes b = true ->
    spawn (rm_argv (filename file)) w4 = (Done k, w5) ->
    spawn (run_argv (filename file)) w5 = (Failed n, w6) ->
    upload_path request w0
      (Exc (LibraryError n), w6,
       (until_build (filename file) pjp w2
        ++ built_trace (filename file) pjp b
        ++ [EvRun (run_argv (filename file))])%list)
| path_deployed (file : FileStorage B) (pjp : string) (b k r : completed)
    (w2 w3 w4 w5 w6 : W) :
    at_build request file w0 w2 w3 pjp ->
    spawn (build_argv (filename file) pjp) w3 = (Done b, w4) ->
    returncode b = 0%Z ->
    build_decodes b = true ->
    spawn (rm_argv (filename file)) w4 = (Done k, w5) ->
    spawn (run_argv (filename file)) w5 = (Done r, w6) ->
    upload_path request w0
      (run_outcome (filename file) r, w6,
       (until_build (filename file) pjp w2
        ++ deploy_trace (filename file) pjp b r)%list).


(** The error messages of the 400 answers of the source. *)
Definition client_errors : list string :=
  ["No file part in the request";
   "No selected file";
   "Invalid file format. Only .zip files are allowed.";
   "package.json not found in the extracted ZIP."].

(** ** A server without Docker *)

(** The reference operating system on a machine where the [docker]
    executable is missing: every launch raises [FileNotFoundError]. *)
Definition no_docker_os : OS Sim.world string := {|
  storage_save := fun bytes dst w => Sim.sim_write dst bytes w;
  unpack_archive := Sim.sim_unpack;
  lookup := Sim.sim_lookup;
  open_write := Sim.sim_write;
  spawn := fun _ w => (Failed "FileNotFoundError", w)
|}.

(** An upload under a folder that does not exist in the uploads folder. *)
Definition nodir_file : FileStorage string :=
  mkFileStorage "nodir/x.zip" "PK|package.json|{}".
Definition nodir_request : Request string := mkRequest [("file", nodir_file)].

(** ** A container runtime whose output is not UTF-8 *)




(** ** Further uploads *)

Module Stale.

(** A second [demo.zip], an archive that holds no manifest, uploaded once
    [Demo.file] is deployed: the folder [./builds/demo] still holds the
    files of the first upload. *)
Definition file : FileStorage string :=
  mkFileStorage "demo.zip" "PK|readme.txt|hello".
Definition request : Request string := mkRequest [("file", file)].

End Stale.

Module Mixed.

(** [App.zip]: a name in mixed case, with the manifest at the top of the
    archive, and a second archive of that name with the manifest two
    directories down. *)
Definition file : FileStorage string :=
  mkFileStorage "App.zip" "PK|package.json|{}".
Definition request : Request string := mkRequest [("file", file)].

Definition deep_file : FileStorage string :=
  mkFileStorage "App.zip" "PK|src/server/package.json|{}".
Definition deep_request : Request string := mkRequest [("file", deep_file)].

End Mixed.

(** ** The names the specification describes *)

(** The text before the last dot of a name; the name when it has no dot. *)
Definition strip_extension (name : string) : string :=
  match Py.rsplit1 Py.extsep name with
  | Some (stem, _) => stem
  | None => name
  end.

(** The base name of the archive, extension stripped. *)
Definition base_name (fname : string) : string :=
  strip_extension (OsPath.tail_from_last_sep fname).

(** ** [str.lower] on the reference operating system *)

(** The instance of the concrete checks. On ASCII text it is [str.lower];
    on other text it leaves the bytes as they are, which [str.lower] does
    not, so it stands for [str.lower] on the reference uploads only, whose
    filenames are ASCII. The theorems hold for every instance. *)
#[global] Instance ascii_names : PyStr := {
  str_lower := Py.lower;
  str_lower_ascii := fun s _ => eq_refl
}.

(** * Checks on concrete inputs *)

Example allowed_demo : allowed_file "demo.zip" = true. Proof. reflexivity. Qed.
Example allowed_upper : allowed_file "Demo.tar.ZiP" = true. Proof. reflexivity. Qed.
Example allowed_txt : allowed_file "bad.txt" = false. Proof. reflexivity. Qed.
Example allowed_nodot : allowed_file "zip" = false. Proof. reflexivity. Qed.
Example allowed_bare : allowed_file ".zip" = true. Proof. reflexivity. Qed.
Example allowed_zipx : allowed_file "a.zipx" = false. Proof. reflexivity. Qed.
Example splitext_plain : OsPath.splitext "foo.bar.exe" = ("foo.bar", ".exe").
Proof. reflexivity. Qed.
Example splitext_hidden : OsPath.splitext ".cshrc" = (".cshrc", EmptyString).
Proof. reflexivity. Qed.
Example splitext_dots : OsPath.splitext "/foo/....jpg" = ("/foo/....jpg", EmptyString).
Proof. reflexivity. Qed.
Example splitext_dir : OsPath.splitext "a.b/c" = ("a.b/c", EmptyString).
Proof. reflexivity. Qed.
Example splitext_dir2 : OsPath.splitext "../x.zip" = ("../x", ".zip").
Proof. reflexivity. Qed.
Example dirname_ex1 : OsPath.dirname "./builds/demo/sub/pkg/package.json" = "./builds/demo/sub/pkg".
Proof. reflexivity. Qed.
Example dirname_ex2 : OsPath.dirname "/package.json" = "/".
Proof. reflexivity. Qed.
Example dirname_ex3 : OsPath.dirname "a//b" = "a".
Proof. reflexivity. Qed.
Example dirname_ex4 : OsPath.dirname "package.json" = EmptyString.
Proof. reflexivity. Qed.
Example join_ex1 : OsPath.join "./uploads" "demo.zip" = "./uploads/demo.zip".
Proof. reflexivity. Qed.
Example join_ex2 : OsPath.join "./uploads" "/etc/x.zip" = "/etc/x.zip".
Proof. reflexivity. Qed.
Example join_ex3 : OsPath.join "a/" "b" = "a/b".
Proof. reflexivity. Qed.
Example names_app :
  image_name "app.zip" = "app-image" /\ container_name "app.zip" = "app-container".
Proof. split; reflexivity. Qed.
Example names_lowercased :
  image_name "My.App.ZIP" = "my.app-image"
  /\ container_name "My.App.ZIP" = "my.app-container".
Proof. split; reflexivity. Qed.
Example names_keep_directories : image_name "a/B.zip" = "a/b-image".
Proof. reflexivity. Qed.
Example names_of_bare_zip : image_name ".zip" = ".zip-image".
Proof. reflexivity. Qed.

(** The scenario [bad.txt] of the specification: 400 at once, nothing done. *)
Example scenario_bad_txt :
  upload_file Other.text Sim.fresh
  = (Val ([("error", "Invalid file format. Only .zip files are allowed.")], 400%Z),
     Sim.fresh, []).
Proof. reflexivity. Qed.

(** A request without the field [file], and one with an empty filename. *)
Example scenario_no_field :
  upload_file (mkRequest [("other", mkFileStorage "demo.zip" "PK")]) Sim.fresh
  = (Val ([("error", "No file part in the request")], 400%Z), Sim.fresh, []).
Proof. reflexivity. Qed.
Example scenario_no_name :
  upload_file (mkRequest [("file", mkFileStorage EmptyString "PK")]) Sim.fresh
  = (Val ([("error", "No selected file")], 400%Z), Sim.fresh, []).
Proof. reflexivity. Qed.

(** The scenario [demo.zip] of the specification, step by step: the tree
    that is walked, the manifest that is found, and the whole trace. *)
Example scenario_demo_walk :
  walk "./builds/demo" Demo.tree
  = [("./builds/demo", ["sub"], []);
     ("./builds/demo/sub", ["pkg"], []);
     ("./builds/demo/sub/pkg", [], ["package.json"; "index.js"])].
Proof. reflexivity. Qed.
Example scenario_demo_manifest :
  manifest_at "demo.zip" Demo.unpacked = Some "./builds/demo/sub/pkg/package.json".
Proof. reflexivity. Qed.
Example scenario_demo_trace :
  trace (upload_file Demo.request Sim.fresh)
  = [EvSave "./uploads/demo.zip";
     EvLog INFO "File saved at ./uploads/demo.zip";
     EvUnpack "./uploads/demo.zip" "./builds/demo";
     EvLog INFO "File extracted to ./builds/demo";
     EvWalk "./builds/demo";
     EvExists "./builds/demo/sub/pkg/Dockerfile";
     EvWrite "./builds/demo/sub/pkg/Dockerfile" DEFAULT_DOCKERFILE;
     EvLog INFO "Dockerfile created at ./builds/demo/sub/pkg/Dockerfile";
     EvRun ["docker"; "build"; "-t"; "demo-image"; "./builds/demo/sub/pkg"];
     EvLog INFO "Docker Build Output: Successfully tagged demo-image";
     EvLog ERROR "Docker Build Error: ";
     EvRun ["docker"; "rm"; "-f"; "demo-container"];
     EvRun ["docker"; "run"; "-d"; "--name"; "demo-container"; "-p"; "3000:3000";
            "demo-image"];
     EvLog INFO "Docker Run Output: demo-container";
     EvLog ERROR "Docker Run Error: "].
Proof. reflexivity. Qed.

(** The first directory in walk order decides when two hold a manifest. *)
Example first_manifest_wins :
  find_file_loop "package.json"
    (walk "r" (Dir [("a", Dir [("package.json", File "1")]);
                    ("b", Dir [("package.json", File "2")])]))
  = Some "r/a/package.json".
Proof. reflexivity. Qed.

(** A directory called [package.json] is not a manifest. *)
Example directory_is_no_manifest :
  find_file_loop "package.json" (walk "r" (Dir [("package.json", Dir [])])) = None.
Proof. reflexivity. Qed.

(** On the reference system, as with [shutil], the archive format is read
    off the saved file name with regard to case: [demo.ZIP] is accepted by
    [allowed_file] and then refused by the unpacker. *)
Example upper_case_name_not_unpacked :
  allowed_file "demo.ZIP" = true
  /\ outcome (upload_file (mkRequest [("file", mkFileStorage "demo.ZIP" "PK|package.json|{}")])
                          Sim.fresh)
     = Exc (LibraryError "ReadError").
Proof. split; reflexivity. Qed.

(** * Strings and paths *)

Lemma contains_rsplit1_none (c : ascii) (s : string) :
  Py.rsplit1 c s = None <-> Py.contains c s = false.
Proof.
  induction s as [|a s IH]; simpl.
  - split; reflexivity.
  - destruct (Py.rsplit1 c s) as [[l r]|].
    + split; [discriminate|].
      intros H. apply orb_false_iff in H. destruct H as [_ H].
      apply IH in H. discriminate.
    + destruct (Ascii.eqb a c); simpl.
      * split; discriminate.
      * split; intros _; [apply IH|]; reflexivity.
Qed.

Lemma rsplit1_some (c : ascii) (s l r : string) :
  Py.rsplit1 c s = Some (l, r) ->
  s = l ++ String c r /\ Py.contains c r = false.
Proof.
  revert l r. induction s as [|a s IH]; simpl; intros l r H.
  - discriminate.
  - destruct (Py.rsplit1 c s) as [[l0 r0]|] eqn:E.
    + inversion H; subst. destruct (IH _ _ eq_refl) as [-> Hr].
      split; [reflexivity|exact Hr].
    + destruct (Ascii.eqb a c) eqn:Eac; [|discriminate].
      inversion H; subst. apply Ascii.eqb_eq in Eac. subst a.
      split; [reflexivity|]. apply contains_rsplit1_none. exact E.
Qed.

Lemma rsplit1_app (c : ascii) (l r : string) :
  Py.contains c r = false ->
  Py.rsplit1 c (l ++ String c r) = Some (l, r).
Proof.
  intros Hr. induction l as [|a l IH]; simpl.
  - apply contains_rsplit1_none in Hr. rewrite Hr.
    rewrite Ascii.eqb_refl. reflexivity.
  - rewrite IH. reflexivity.
Qed.

Lemma lower_char_dot (a : ascii) :
  Ascii.eqb (Py.lower_char a) Py.extsep = Ascii.eqb a Py.extsep.
Proof.
  destruct a as [[] [] [] [] [] [] [] []]; reflexivity.
Qed.

Lemma contains_dot_lower (s : string) :
  Py.contains Py.extsep (Py.lower s) = Py.contains Py.extsep s.
Proof.
  induction s as [|a s IH]; simpl; [reflexivity|].
  rewrite lower_char_dot, IH. reflexivity.
Qed.

(** [allowed_file] accepts exactly the names that end in a dot and an
    extension equal to [zip] up to case. *)
Lemma allowed_file_iff (fname : string) :
  allowed_file fname = true <-> has_accepted_extension fname.
Proof.
  unfold allowed_file, has_accepted_extension, Py.rsplit1_snd. split.
  - intros H. apply andb_true_iff in H. destruct H as [Hc Hm].
    destruct (Py.rsplit1 Py.extsep fname) as [[l r]|] eqn:E.
    + apply rsplit1_some in E. destruct E as [-> _].
      exists l, r. split; [reflexivity|].
      simpl in Hm. rewrite orb_false_r in Hm. apply String.eqb_eq in Hm. exact Hm.
    + apply contains_rsplit1_none in E. congruence.
  - intros (stem & ext & -> & Hl).
    assert (Hd : Py.contains Py.extsep ext = false).
    { rewrite <- contains_dot_lower, Hl. reflexivity. }
    rewrite (rsplit1_app _ stem ext Hd), Hl.
    assert (Hc : Py.contains Py.extsep (stem ++ String Py.extsep ext) = true).
    { destruct (Py.contains Py.extsep (stem ++ String Py.extsep ext)) eqn:Ec;
        [reflexivity|].
      apply contains_rsplit1_none in Ec.
      rewrite (rsplit1_app _ stem ext Hd) in Ec. discriminate. }
    rewrite Hc. reflexivity.
Qed.

Lemma accepted_nonempty (fname : string) :
  allowed_file fname = true -> String.eqb fname EmptyString = false.
Proof.
  destruct fname; [discriminate|reflexivity].
Qed.

Lemma rstrip_keeps (c : ascii) (d : string) :
  Py.endswith c d = false -> Py.rstrip c d = d.
Proof.
  induction d as [|a d IH]; [reflexivity|].
  destruct d as [|b d'].
  - simpl. intros ->. reflexivity.
  - intros H. change (Py.endswith c (String b d') = false) in H.
    change (Py.rstrip c (String a (String b d')))
      with (match Py.rstrip c (String b d') with
            | EmptyString => if Ascii.eqb a c then EmptyString else String a EmptyString
            | r => String a r
            end).
    rewrite (IH H). reflexivity.
Qed.

Lemma rstrip_snoc (c : ascii) (d : string) :
  Py.rstrip c (d ++ String c EmptyString) = Py.rstrip c d.
Proof.
  induction d as [|a d IH]; simpl.
  - rewrite Ascii.eqb_refl. reflexivity.
  - rewrite IH. reflexivity.
Qed.

Lemma all_chars_app (c : ascii) (s t : string) :
  Py.all_chars c (s ++ t) = Py.all_chars c s && Py.all_chars c t.
Proof.
  induction s as [|a s IH]; simpl; [reflexivity|].
  rewrite IH, andb_assoc. reflexivity.
Qed.

Lemma all_chars_endswith (c : ascii) (d : string) :
  Py.truthy d = true -> Py.endswith c d = false -> Py.all_chars c d = false.
Proof.
  induction d as [|a d IH]; [discriminate|].
  intros _ H. destruct d as [|b d'].
  - simpl in *. rewrite H. reflexivity.
  - change (Py.endswith c (String b d') = false) in H.
    simpl. simpl in IH. rewrite (IH eq_refl H).
    apply andb_false_r.
Qed.

Lemma truthy_app_l (s t : string) :
  Py.truthy s = true -> Py.truthy (s ++ t) = true.
Proof. destruct s; [discriminate|reflexivity]. Qed.

Lemma startswith_contains (c : ascii) (s : string) :
  Py.contains c s = false -> Py.startswith c s = false.
Proof.
  destruct s as [|a s]; [reflexivity|]. simpl.
  intros H. apply orb_false_iff in H. apply H.
Qed.

(** [dirname] undoes [join]: the directory of [join(dir, name)] is [dir], for
    a non-empty [dir] without trailing separator and a [name] without
    separator, which is how [os.walk] builds its roots. *)
Lemma dirname_join (dir name : string) :
  Py.truthy dir = true ->
  Py.endswith Py.sep dir = false ->
  Py.contains Py.sep name = false ->
  OsPath.dirname (OsPath.join dir name) = dir.
Proof.
  intros Ht He Hn.
  unfold OsPath.join. rewrite (startswith_contains _ _ Hn), Ht, He. simpl.
  unfold OsPath.dirname, OsPath.head_to_last_sep.
  rewrite (rsplit1_app Py.sep dir name Hn).
  rewrite (truthy_app_l _ _ Ht), all_chars_app.
  rewrite (all_chars_endswith _ _ Ht He). simpl.
  rewrite rstrip_snoc. apply rstrip_keeps. exact He.
Qed.

(** * Walking a tree *)

(** Induction on a tree, with the property at hand for every entry of a
    directory. *)
Lemma node_induction (P : node -> Prop)
    (HF : forall c, P (File c))
    (HD : forall es, Forall (fun e => P (snd e)) es -> P (Dir es)) :
  forall n, P n.
Proof.
  fix IH 1. intros [c|es].
  - apply HF.
  - apply HD. induction es as [|e es IHes]; constructor.
    + apply IH.
    + exact IHes.
Qed.

Lemma find_file_loop_app (name : string)
    (l1 l2 : list (string * list string * list string)) :
  find_file_loop name (l1 ++ l2)
  = match find_file_loop name l1 with
    | Some p => Some p
    | None => find_file_loop name l2
    end.
Proof.
  induction l1 as [|[[r ds] fs] l1 IH]; simpl; [reflexivity|].
  destruct (Py.mem name fs); [reflexivity|exact IH].
Qed.

(** The loop answers with a path inside one of the walked directories that
    lists the file. *)
Lemma find_file_loop_some (name p : string)
    (triples : list (string * list string * list string)) :
  find_file_loop name triples = Some p ->
  exists root ds fs,
    In (root, ds, fs) triples /\ Py.mem name fs = true
    /\ p = OsPath.join root name.
Proof.
  induction triples as [|[[r ds] fs] l IH]; simpl; [discriminate|].
  destruct (Py.mem name fs) eqn:E.
  - intros H. inversion H; subst. exists r, ds, fs. auto.
  - intros H. destruct (IH H) as (r' & ds' & fs' & Hin & Hm & Hp).
    exists r', ds', fs'. auto.
Qed.

(** [find_file] misses exactly when the tree holds no such file at any
    depth. *)
Lemma find_file_loop_walk (name : string) (n : node) :
  forall top,
    find_file_loop name (walk top n) = None <-> contains_file name n = false.
Proof.
  induction n as [c|es IH] using node_induction; intros top.
  - simpl. split; reflexivity.
  - simpl. destruct (Py.mem name (filenames es)); simpl.
    + split; discriminate.
    + induction IH as [|[k sub] l Hsub _ IHl]; simpl.
      * split; reflexivity.
      * rewrite find_file_loop_app. simpl in Hsub.
        destruct (find_file_loop name (walk (OsPath.join top k) sub)) eqn:E.
        -- split; [discriminate|]. intros H.
           apply orb_false_iff in H. destruct H as [H _].
           apply (Hsub (OsPath.join top k)) in H. congruence.
        -- apply (Hsub (OsPath.join top k)) in E. rewrite E. simpl. exact IHl.
Qed.

Lemma find_file_loop_found (name : string) (n : node) (top : string) :
  contains_file name n = true ->
  exists p, find_file_loop name (walk top n) = Some p.
Proof.
  intros H. destruct (find_file_loop name (walk top n)) as [p|] eqn:E.
  - exists p. reflexivity.
  - apply find_file_loop_walk in E. congruence.
Qed.

Lemma join_truthy (a b : string) :
  Py.truthy b = true -> Py.truthy (OsPath.join a b) = true.
Proof.
  intros Hb. unfold OsPath.join.
  destruct (Py.startswith Py.sep b); [exact Hb|].
  destruct (negb (Py.truthy a) || Py.endswith Py.sep a);
    destruct a; simpl; auto.
Qed.

(** A path that [find_file] returns is never the empty string, so the test
    [not package_json_path] fails exactly on [None]. *)
Lemma py_not_found (name : string)
    (triples : list (string * list string * list string)) :
  Py.truthy name = true ->
  py_not (find_file_loop name triples)
  = match find_file_loop name triples with Some _ => false | None => true end.
Proof.
  intros Hn. destruct (find_file_loop name triples) as [p|] eqn:E; [|reflexivity].
  apply find_file_loop_some in E. destruct E as (r & ds & fs & _ & _ & ->).
  simpl. rewrite (join_truthy r name Hn). reflexivity.
Qed.

(** * The handler monad *)

Section MonadLaws.
Context {W B : Type} {os : OS W B} {py : PyStr}.

Lemma prepend_nil {A : Type} (x : res A * W * list event) : prepend [] x = x.
Proof. destruct x as [[r w] t]. reflexivity. Qed.

Lemma prepend_prepend {A : Type} (t t' : list event) (x : res A * W * list event) :
  prepend t (prepend t' x) = prepend (t ++ t') x.
Proof. destruct x as [[r w] u]. simpl. rewrite app_assoc. reflexivity. Qed.

Lemma bind_ret {A C : Type} (a : A) (k : A -> M W C) (w : W) :
  bind (ret a) k w = k a w.
Proof. unfold bind, ret. apply prepend_nil. Qed.

Lemma bind_emit {C : Type} (ev : event) (k : unit -> M W C) (w : W) :
  bind (emit ev) k w = prepend [ev] (k tt w).
Proof. reflexivity. Qed.

Lemma bind_query {A C : Type} (ev : event) (f : W -> A) (k : A -> M W C) (w : W) :
  bind (query ev f) k w = prepend [ev] (k (f w) w).
Proof. reflexivity. Qed.

Lemma bind_call_done {A C : Type} (ev : event) (op : W -> sys A * W)
    (k : A -> M W C) (w w1 : W) (a : A) :
  op w = (Done a, w1) -> bind (call ev op) k w = prepend [ev] (k a w1).
Proof. intros H. unfold bind, call. rewrite H. reflexivity. Qed.

Lemma bind_call_failed {A C : Type} (ev : event) (op : W -> sys A * W)
    (k : A -> M W C) (w w1 : W) (n : string) :
  op w = (Failed n, w1) -> bind (call ev op) k w = (Exc (LibraryError n), w1, [ev]).
Proof. intros H. unfold bind, call. rewrite H. reflexivity. Qed.

Lemma bind_bind {A C D : Type} (m : M W A) (k : A -> M W C) (h : C -> M W D) (w : W) :
  bind (bind m k) h w = bind m (fun a => bind (k a) h) w.
Proof.
  unfold bind. destruct (m w) as [[[a|e] w1] t1]; [|reflexivity].
  destruct (k a w1) as [[[c|e] w2] t2]; simpl; [|reflexivity].
  destruct (h c w2) as [[r w3] t3]. simpl. rewrite app_assoc. reflexivity.
Qed.

End MonadLaws.

Section Accepted.
Context {W B : Type} {os : OS W B} {py : PyStr}.
Variables (request : Request B) (file : FileStorage B).
Hypothesis Hfield : files_get "file" (files request) = Some file.
Hypothesis Hok : allowed_file (filename file) = true.
Local Open Scope py_scope.

Lemma upload_accepted (w : W) :
  upload_file request w =
  (call (EvSave (save_path (filename file)))
        (storage_save (stream file) (save_path (filename file))) ;;
   logging_info ("File saved at " ++ save_path (filename file)) ;;
   call (EvUnpack (save_path (filename file)) (extract_dir (filename file)))
        (unpack_archive (save_path (filename file)) (extract_dir (filename file))) ;;
   logging_info ("File extracted to " ++ extract_dir (filename file)) ;;
   found <- find_file (extract_dir (filename file)) "package.json" ;;
   if py_not found then
     ret (error_body "package.json not found in the extracted ZIP.", 400%Z)
   else
     ensure_dockerfile (dockerfile_of (the_str found)) ;;
     build_and_run (filename file) (the_str found)) w.
Proof.
  unfold upload_file. rewrite Hfield, (accepted_nonempty _ Hok), Hok.
  unfold file_truthy. destruct (filename file); [discriminate|]. reflexivity.
Qed.

Variables (w0 w1 w2 : W).
Hypothesis Hsave : storage_save (stream file) (save_path (filename file)) w0 = (Done tt, w1).

Lemma upload_extract_fails (n : string) :
  unpack_archive (save_path (filename file)) (extract_dir (filename file)) w1 = (Failed n, w2) ->
  upload_file request w0 =
  (Exc (LibraryError n), w2,
   [EvSave (save_path (filename file));
    EvLog INFO ("File saved at " ++ save_path (filename file));
    EvUnpack (save_path (filename file)) (extract_dir (filename file))]).
Proof.
  intros Hu. rewrite upload_accepted.
  rewrite (bind_call_done _ _ _ _ _ _ Hsave). unfold logging_info. rewrite bind_emit.
  rewrite (bind_call_failed _ _ _ _ _ _ Hu). reflexivity.
Qed.

Hypothesis Hunpack : unpack_archive (save_path (filename file)) (extract_dir (filename file)) w1 = (Done tt, w2).

Lemma upload_extracted :
  upload_file request w0 =
  prepend (prefix_trace (filename file))
    (if py_not (manifest_at (filename file) w2) then
       (Val (error_body "package.json not found in the extracted ZIP.", 400%Z), w2, [])
     else
       (ensure_dockerfile (dockerfile_of (the_str (manifest_at (filename file) w2))) ;;
        build_and_run (filename file) (the_str (manifest_at (filename file) w2))) w2).
Proof.
  rewrite upload_accepted.
  rewrite (bind_call_done _ _ _ _ _ _ Hsave). unfold logging_info. rewrite bind_emit.
  rewrite (bind_call_done _ _ _ _ _ _ Hunpack). rewrite bind_emit.
  unfold find_file, os_walk. rewrite bind_bind, bind_query, bind_ret.
  fold (manifest_at (filename file) w2).
  rewrite !prepend_prepend. simpl app. fold (prefix_trace (filename file)).
  destruct (py_not (manifest_at (filename file) w2)); reflexivity.
Qed.

Lemma upload_no_manifest :
  manifest_at (filename file) w2 = None ->
  upload_file request w0 =
  (Val (error_body "package.json not found in the extracted ZIP.", 400%Z), w2, prefix_trace (filename file)).
Proof.
  intros Hm. rewrite upload_extracted, Hm. reflexivity.
Qed.

Lemma upload_located (pjp : string) :
  manifest_at (filename file) w2 = Some pjp ->
  upload_file request w0 =
  prepend (prefix_trace (filename file))
    ((ensure_dockerfile (dockerfile_of pjp) ;; build_and_run (filename file) pjp) w2).
Proof.
  intros Hm. rewrite upload_extracted.
  assert (Hn : py_not (manifest_at (filename file) w2) = false).
  { unfold manifest_at. rewrite py_not_found by reflexivity.
    fold (manifest_at (filename file) w2). rewrite Hm. reflexivity. }
  rewrite Hn, Hm. reflexivity.
Qed.
End Accepted.

(** * The Dockerfile step and the container commands *)

Section Stages.
Context {W B : Type} {os : OS W B} {py : PyStr}.
Local Open Scope py_scope.

Lemma ensure_dockerfile_step (path : string) (w w3 : W) :
  dockerfile_step path w w3 ->
  ensure_dockerfile path w = (Val tt, w3, ensure_trace (exists_at path w) path).
Proof.
  unfold dockerfile_step, ensure_dockerfile, os_path_exists. intros H.
  rewrite bind_query. fold (exists_at path w).
  destruct (exists_at path w); simpl.
  - subst w3. reflexivity.
  - rewrite (bind_call_done _ _ _ _ _ _ H). reflexivity.
Qed.

Lemma subprocess_run_done (argv : list string) (check : bool) (w w' : W)
    (p : completed) :
  spawn argv w = (Done p, w') ->
  subprocess_run argv check w =
  if check && negb (returncode p =? 0)%Z
  then (Exc (CalledProcessError (returncode p) argv (stdout p) (stderr p)), w', [EvRun argv])
  else (Val p, w', [EvRun argv]).
Proof.
  intros H. unfold subprocess_run. rewrite (bind_call_done _ _ _ _ _ _ H).
  destruct (check && negb (returncode p =? 0)%Z); reflexivity.
Qed.

Lemma bind_val {A C : Type} (m : M W A) (k : A -> M W C) (w w1 : W) (a : A)
    (t1 : list event) :
  m w = (Val a, w1, t1) -> bind m k w = prepend t1 (k a w1).
Proof. intros H. unfold bind. rewrite H. reflexivity. Qed.

Lemma bind_exc {A C : Type} (m : M W A) (k : A -> M W C) (w w1 : W) (e : exn)
    (t1 : list event) :
  m w = (Exc e, w1, t1) -> bind m k w = (Exc e, w1, t1).
Proof. intros H. unfold bind. rewrite H. reflexivity. Qed.

Lemma subprocess_run_raises (argv : list string) (check : bool) (w w' : W)
    (n : string) :
  spawn argv w = (Failed n, w') ->
  subprocess_run argv check w = (Exc (LibraryError n), w', [EvRun argv]).
Proof.
  intros H. unfold subprocess_run.
  apply (bind_call_failed _ _ _ _ _ _ H).
Qed.

Lemma bind_decode {C : Type} (bytes : string) (k : string -> M W C) (w : W) :
  bind (bytes_decode bytes) k w
  = match Py.decode bytes with
    | Some text => k text w
    | None => (Exc UnicodeDecodeError, w, [])
    end.
Proof.
  unfold bytes_decode. destruct (Py.decode bytes); [apply bind_ret|reflexivity].
Qed.

(** The checked command [argv] has finished with [c]: what the body of the
    [try] goes on with. *)
Lemma checked_run (argv : list string) (w w' : W) (c : completed) :
  spawn argv w = (Done c, w') ->
  subprocess_run argv true w
  = if (returncode c =? 0)%Z then (Val c, w', [EvRun argv])
    else (Exc (CalledProcessError (returncode c) argv (stdout c) (stderr c)),
          w', [EvRun argv]).
Proof.
  intros H. rewrite (subprocess_run_done _ _ _ _ _ H).
  destruct (returncode c =? 0)%Z; reflexivity.
Qed.

(** The two decodes and the two logging calls after a command. *)
Lemma logged_streams {C : Type} (label_out label_err : string) (c : completed)
    (k : M W C) (w : W) :
  bind (bytes_decode (stdout c))
       (fun out => bind (logging_info (label_out ++ out))
          (fun _ => bind (bytes_decode (stderr c))
             (fun err => bind (logging_error (label_err ++ err)) (fun _ => k)))) w
  = if fst (log_streams label_out label_err c)
    then prepend (snd (log_streams label_out label_err c)) (k w)
    else (Exc UnicodeDecodeError, w, snd (log_streams label_out label_err c)).
Proof.
  unfold log_streams. rewrite bind_decode.
  destruct (Py.decode (stdout c)) as [out|]; [|reflexivity].
  unfold logging_info. rewrite bind_emit, bind_decode.
  destruct (Py.decode (stderr c)) as [err|]; [|reflexivity].
  unfold logging_error. rewrite bind_emit, prepend_prepend. reflexivity.
Qed.

(** The [except] clause on the [CalledProcessError] of [argv]. *)
Lemma except_clause (argv : list string) (c : completed) (w : W) :
  bind (emit (EvLogExc ERROR "Subprocess Error: "
                (CalledProcessError (returncode c) argv (stdout c) (stderr c))))
       (fun _ => bind (bytes_decode (stderr c))
          (fun text => ret ([("error", "Docker error: " ++ text)], 500%Z))) w
  = (docker_error c, w, docker_error_trace argv c).
Proof.
  rewrite bind_emit, bind_decode. unfold docker_error, docker_error_trace.
  destruct (Py.decode (stderr c)); reflexivity.
Qed.

Lemma build_fails (fname pjp : string) (w w4 : W) (b : completed) :
  spawn (build_argv fname pjp) w = (Done b, w4) ->
  returncode b <> 0%Z ->
  build_and_run fname pjp w
  = (docker_error b, w4, build_failed_trace fname pjp b).
Proof.
  intros Hb Hrc. apply Z.eqb_neq in Hrc.
  unfold build_and_run, try_except.
  erewrite bind_exc by (rewrite (checked_run _ _ _ _ Hb), Hrc; reflexivity).
  cbv beta iota. rewrite except_clause. reflexivity.
Qed.

Lemma build_garbled (fname pjp : string) (w w4 : W) (b : completed) :
  spawn (build_argv fname pjp) w = (Done b, w4) ->
  returncode b = 0%Z ->
  build_decodes b = false ->
  build_and_run fname pjp w
  = (Exc UnicodeDecodeError, w4, EvRun (build_argv fname pjp) :: build_logs b).
Proof.
  intros Hb Hrc Hd. apply Z.eqb_eq in Hrc. unfold build_decodes in Hd.
  unfold build_and_run, try_except.
  erewrite bind_val by (rewrite (checked_run _ _ _ _ Hb), Hrc; reflexivity).
  rewrite logged_streams, Hd. reflexivity.
Qed.

Lemma build_then_rm_raises (fname pjp : string) (w w4 w5 : W) (b : completed)
    (n : string) :
  spawn (build_argv fname pjp) w = (Done b, w4) ->
  returncode b = 0%Z ->
  build_decodes b = true ->
  spawn (rm_argv fname) w4 = (Failed n, w5) ->
  build_and_run fname pjp w
  = (Exc (LibraryError n), w5, built_trace fname pjp b).
Proof.
  intros Hb Hrc Hd Hk. apply Z.eqb_eq in Hrc. unfold build_decodes in Hd.
  unfold build_and_run, try_except.
  erewrite bind_val by (rewrite (checked_run _ _ _ _ Hb), Hrc; reflexivity).
  rewrite logged_streams, Hd.
  erewrite bind_exc by (apply subprocess_run_raises; exact Hk).
  reflexivity.
Qed.

Lemma build_then_run_raises (fname pjp : string) (w w4 w5 w6 : W)
    (b k : completed) (n : string) :
  spawn (build_argv fname pjp) w = (Done b, w4) ->
  returncode b = 0%Z ->
  build_decodes b = true ->
  spawn (rm_argv fname) w4 = (Done k, w5) ->
  spawn (run_argv fname) w5 = (Failed n, w6) ->
  build_and_run fname pjp w
  = (Exc (LibraryError n), w6,
     (built_trace fname pjp b ++ [EvRun (run_argv fname)])%list).
Proof.
  intros Hb Hrc Hd Hk Hr. apply Z.eqb_eq in Hrc. unfold build_decodes in Hd.
  unfold build_and_run, try_except.
  erewrite bind_val by (rewrite (checked_run _ _ _ _ Hb), Hrc; reflexivity).
  rewrite logged_streams, Hd.
  erewrite bind_val by (rewrite (subprocess_run_done _ _ _ _ _ Hk); reflexivity).
  erewrite bind_exc by (apply subprocess_run_raises; exact Hr).
  unfold prepend, built_trace. simpl. rewrite <- !app_assoc. reflexivity.
Qed.

Lemma build_succeeds (fname pjp : string) (w w4 w5 w6 : W) (b k r : completed) :
  spawn (build_argv fname pjp) w = (Done b, w4) ->
  returncode b = 0%Z ->
  build_decodes b = true ->
  spawn (rm_argv fname) w4 = (Done k, w5) ->
  spawn (run_argv fname) w5 = (Done r, w6) ->
  build_and_run fname pjp w
  = (run_outcome fname r, w6, deploy_trace fname pjp b r).
Proof.
  intros Hb Hrc Hd Hk Hr. apply Z.eqb_eq in Hrc. unfold build_decodes in Hd.
  unfold build_and_run, try_except, run_outcome, deploy_trace, run_logs, built_trace.
  erewrite bind_val by (rewrite (checked_run _ _ _ _ Hb), Hrc; reflexivity).
  rewrite logged_streams, Hd.
  erewrite bind_val by (rewrite (subprocess_run_done _ _ _ _ _ Hk); reflexivity).
  destruct (returncode r =? 0)%Z eqn:Er.
  - erewrite bind_val by (rewrite (checked_run _ _ _ _ Hr), Er; reflexivity).
    rewrite logged_streams.
    destruct (fst (log_streams "Docker Run Output: " "Docker Run Error: " r));
      unfold prepend, build_logs, ret; simpl; rewrite <- ?app_assoc, ?app_nil_r;
      reflexivity.
  - erewrite bind_exc by (rewrite (checked_run _ _ _ _ Hr), Er; reflexivity).
    unfold prepend. simpl. rewrite <- ?app_assoc. simpl.
    rewrite except_clause. unfold build_logs. simpl.
    rewrite <- ?app_assoc, ?app_nil_r. reflexivity.
Qed.

End Stages.

Lemma commands_app (t u : list event) :
  commands (t ++ u) = (commands t ++ commands u)%list.
Proof.
  induction t as [|ev t IH]; simpl; [reflexivity|].
  destruct ev; simpl; rewrite IH; reflexivity.
Qed.

Lemma writes_app (t u : list event) :
  writes (t ++ u) = (writes t ++ writes u)%list.
Proof.
  induction t as [|ev t IH]; simpl; [reflexivity|].
  destruct ev; simpl; rewrite IH; reflexivity.
Qed.

Lemma commands_ensure_trace (present : bool) (path : string) :
  commands (ensure_trace present path) = [].
Proof. destruct present; reflexivity. Qed.

Lemma writes_ensure_trace (present : bool) (path : string) :
  writes (ensure_trace present path)
  = if present then [] else [(path, DEFAULT_DOCKERFILE)].
Proof. destruct present; reflexivity. Qed.

Lemma commands_log_streams (label_out label_err : string) (c : completed) :
  commands (snd (log_streams label_out label_err c)) = [].
Proof.
  unfold log_streams. destruct (Py.decode (stdout c)); [|reflexivity].
  destruct (Py.decode (stderr c)); reflexivity.
Qed.

Lemma writes_log_streams (label_out label_err : string) (c : completed) :
  writes (snd (log_streams label_out label_err c)) = [].
Proof.
  unfold log_streams. destruct (Py.decode (stdout c)); [|reflexivity].
  destruct (Py.decode (stderr c)); reflexivity.
Qed.

Lemma commands_run_logs {py : PyStr} (fname : string) (r : completed) :
  commands (run_logs fname r) = [].
Proof.
  unfold run_logs. destruct (returncode r =? 0)%Z;
    [apply commands_log_streams|reflexivity].
Qed.

Lemma writes_run_logs {py : PyStr} (fname : string) (r : completed) :
  writes (run_logs fname r) = [].
Proof.
  unfold run_logs. destruct (returncode r =? 0)%Z;
    [apply writes_log_streams|reflexivity].
Qed.

Lemma commands_build_started {py : PyStr} (fname pjp : string) (b : completed) :
  commands (EvRun (build_argv fname pjp) :: build_logs b) = [build_argv fname pjp].
Proof. simpl. unfold build_logs. rewrite commands_log_streams. reflexivity. Qed.

Lemma commands_built_trace {py : PyStr} (fname pjp : string) (b : completed) :
  commands (built_trace fname pjp b) = [build_argv fname pjp; rm_argv fname].
Proof.
  unfold built_trace, build_logs. simpl.
  rewrite commands_app, commands_log_streams. reflexivity.
Qed.

Lemma writes_built_trace {py : PyStr} (fname pjp : string) (b : completed) :
  writes (built_trace fname pjp b) = [].
Proof.
  unfold built_trace, build_logs. simpl.
  rewrite writes_app, writes_log_streams. reflexivity.
Qed.

Lemma commands_deploy_trace {py : PyStr} (fname pjp : string) (b r : completed) :
  commands (deploy_trace fname pjp b r)
  = [build_argv fname pjp; rm_argv fname; run_argv fname].
Proof.
  unfold deploy_trace. rewrite commands_app, commands_built_trace. simpl.
  rewrite commands_run_logs. reflexivity.
Qed.

Lemma writes_deploy_trace {py : PyStr} (fname pjp : string) (b r : completed) :
  writes (deploy_trace fname pjp b r) = [].
Proof.
  unfold deploy_trace. rewrite writes_app, writes_built_trace. simpl.
  apply writes_run_logs.
Qed.




Lemma log_streams_garbled (label_out label_err : string) (c : completed) :
  fst (log_streams label_out label_err c) = false ->
  Py.decode (stdout c) = None \/ Py.decode (stderr c) = None.
Proof.
  unfold log_streams. destruct (Py.decode (stdout c)); [|auto].
  destruct (Py.decode (stderr c)); [discriminate|auto].
Qed.

(** The [except] clause answers 500 with the standard error, or the
    standard error does not decode. *)
Lemma docker_error_cases (c : completed) :
  docker_error c = Val (error_body ("Docker error: " ++ stderr c), 500%Z)
  \/ (docker_error c = Exc UnicodeDecodeError /\ Py.decode (stderr c) = None).
Proof.
  unfold docker_error, Py.decode.
  destruct (Py.utf8_valid (stderr c)); [left|right; split]; reflexivity.
Qed.

(** The three ways a finished run command is answered. *)
Lemma run_outcome_cases {py : PyStr} (fname : string) (r : completed) :
  (returncode r = 0%Z /\ run_outcome fname r = Val (success_body fname, 200%Z))
  \/ (returncode r = 0%Z /\ run_outcome fname r = Exc UnicodeDecodeError
      /\ (Py.decode (stdout r) = None \/ Py.decode (stderr r) = None))
  \/ (returncode r <> 0%Z /\ run_outcome fname r = docker_error r).
Proof.
  unfold run_outcome. destruct (returncode r =? 0)%Z eqn:Er.
  - apply Z.eqb_eq in Er.
    destruct (fst (log_streams "Docker Run Output: " "Docker Run Error: " r)) eqn:El.
    + left. auto.
    + right. left. split; [exact Er|]. split; [reflexivity|].
      apply (log_streams_garbled _ _ _ El).
  - apply Z.eqb_neq in Er. right. right. auto.
Qed.


(** * The claims about rejected requests *)

Section Rejected.
Context {W B : Type} {os : OS W B} {py : PyStr}.

(** C2. A request with no file field, with an empty filename or with a
    filename that lacks the accepted extension is answered with a 400 error
    object; the world is left as it was and the trace is empty: no write to
    the filesystem, no external process, before the answer. *)
Theorem invalid_request_rejected (request : Request B) (w : W) :
  rejected request ->
  exists msg : string,
    upload_file request w = (Val (error_body msg, 400%Z), w, []).
Proof.
  unfold rejected, upload_file.
  destruct (files_get "file" (files request)) as [file|].
  - intros [He|Hx].
    + rewrite He. simpl. eexists. reflexivity.
    + destruct (String.eqb (filename file) EmptyString); [eexists; reflexivity|].
      destruct (allowed_file (filename file)) eqn:Ea.
      * apply allowed_file_iff in Ea. contradiction.
      * rewrite andb_false_r. eexists. reflexivity.
  - intros _. eexists. reflexivity.
Qed.

End Rejected.

(** * The claims about accepted uploads *)

Section Pipeline.
Context {W B : Type} {os : OS W B} {py : PyStr}.
Variables (request : Request B) (file : FileStorage B).

(** The request carries the file, under a name with the accepted extension. *)
Hypothesis Hfield : files_get "file" (files request) = Some file.
Hypothesis Hext : has_accepted_extension (filename file).

(** The upload is saved: the world goes from [w0] to [w1]. *)
Variables (w0 w1 : W).
Hypothesis Hsave :
  storage_save (stream file) (save_path (filename file)) w0 = (Done tt, w1).

Lemma accepted_ok : allowed_file (filename file) = true.
Proof. apply allowed_file_iff. exact Hext. Qed.

(** C3, as the code has it. When unpacking raises, the handler stops at
    once: nothing is searched, written or launched after the failed call.
    The exception is not turned into a response: it leaves the handler. *)
Theorem extraction_error_propagates (exc_name : string) (w2 : W) :
  unpack_archive (save_path (filename file)) (extract_dir (filename file)) w1
  = (Failed exc_name, w2) ->
  upload_file request w0
  = (Exc (LibraryError exc_name), w2,
     [EvSave (save_path (filename file));
      EvLog INFO ("File saved at " ++ save_path (filename file));
      EvUnpack (save_path (filename file)) (extract_dir (filename file))]).
Proof.
  intros Hu. exact (upload_extract_fails request file Hfield accepted_ok w0 w1 w2 Hsave exc_name Hu).
Qed.

Section Extracted.

(** The archive is unpacked: the world goes from [w1] to [w2]. *)
Variable w2 : W.
Hypothesis Hunpack :
  unpack_archive (save_path (filename file)) (extract_dir (filename file)) w1
  = (Done tt, w2).

(** C4, as the code has it. The search is made in the extraction folder as
    it stands once the archive is unpacked, with whatever an earlier upload
    of the same name has left there: when that tree holds no file named
    [package.json] at any depth, the answer is 400 with the message of the
    source, and no external command is launched. *)
Theorem missing_manifest_rejected :
  (forall tree : node,
      lookup (extract_dir (filename file)) w2 = Some tree ->
      contains_file "package.json" tree = false) ->
  exists t : list event,
    upload_file request w0
    = (Val (error_body "package.json not found in the extracted ZIP.", 400%Z), w2, t)
    /\ commands t = [].
Proof.
  intros Hno. exists (prefix_trace (filename file)). split; [|reflexivity].
  apply (upload_no_manifest request file Hfield accepted_ok w0 w1 w2 Hsave Hunpack).
  unfold manifest_at.
  destruct (lookup (extract_dir (filename file)) w2) as [tree|] eqn:El; [|reflexivity].
  apply find_file_loop_walk. apply Hno. reflexivity.
Qed.

Section Located.

(** The unpacked tree holds a [package.json]; the Dockerfile step takes the
    world from [w2] to [w3]. *)
Variable tree : node.
Hypothesis Htree : lookup (extract_dir (filename file)) w2 = Some tree.
Hypothesis Hhas : contains_file "package.json" tree = true.

Variable w3 : W.
Hypothesis Hstep :
  dockerfile_step
    (dockerfile_of (located_manifest (extract_dir (filename file)) tree)) w2 w3.

Lemma manifest_located :
  manifest_at (filename file) w2
  = Some (located_manifest (extract_dir (filename file)) tree).
Proof.
  unfold manifest_at, located_manifest. rewrite Htree.
  destruct (find_file_loop_found "package.json" tree (extract_dir (filename file)) Hhas)
    as [p Hp].
  rewrite Hp. reflexivity.
Qed.

Lemma upload_at_build :
  upload_file request w0
  = prepend
      (prefix_trace (filename file)
       ++ ensure_trace
            (exists_at (dockerfile_of (located_manifest (extract_dir (filename file)) tree)) w2)
            (dockerfile_of (located_manifest (extract_dir (filename file)) tree)))
      (build_and_run (filename file)
         (located_manifest (extract_dir (filename file)) tree) w3).
Proof.
  rewrite (upload_located request file Hfield accepted_ok w0 w1 w2 Hsave Hunpack _ manifest_located).
  rewrite (bind_val _ _ _ _ _ _ (ensure_dockerfile_step _ _ _ Hstep)).
  rewrite prepend_prepend. reflexivity.
Qed.


(** C9. When the build command exits non-zero, the handler launches no
    other command: the removal of the old container, which comes after
    the build in the source, is never reached. The world the handler leaves
    is the one the build command left, so whatever the saving, the
    unpacking, the Dockerfile step and the build did not touch (the running
    containers) is as it was before the request. *)
Theorem failed_build_keeps_container (b : completed) (w4 : W) :
  spawn (build_argv (filename file)
           (located_manifest (extract_dir (filename file)) tree)) w3
  = (Done b, w4) ->
  returncode b <> 0%Z ->
  final_world (upload_file request w0) = w4
  /\ ~ In (rm_argv (filename file)) (commands (trace (upload_file request w0)))
  /\ ~ In (run_argv (filename file)) (commands (trace (upload_file request w0)))
  /\ forall (A : Type) (running : W -> A),
       running w1 = running w0 -> running w2 = running w1 ->
       running w3 = running w2 -> running w4 = running w3 ->
       running (final_world (upload_file request w0)) = running w0.
Proof.
  intros Hb Hrc. rewrite upload_at_build.
  rewrite (build_fails _ _ _ _ _ Hb Hrc). unfold prepend, final_world, trace.
  cbn [fst snd].
  rewrite !commands_app, commands_ensure_trace.
  repeat split.
  - simpl. intros [H|[]]. discriminate H.
  - simpl. intros [H|[]]. discriminate H.
  - intros A running H1 H2 H3 H4. congruence.
Qed.

(** The removal is launched only after a build that exited zero and whose
    output decoded. *)
Lemma removal_reached (b : completed) (w4 : W) :
  spawn (build_argv (filename file)
           (located_manifest (extract_dir (filename file)) tree)) w3
  = (Done b, w4) ->
  In (rm_argv (filename file)) (commands (trace (upload_file request w0))) ->
  returncode b = 0%Z /\ build_decodes b = true.
Proof.
  intros Hb. rewrite upload_at_build.
  destruct (Z.eq_dec (returncode b) 0) as [Hrc|Hrc].
  - destruct (build_decodes b) eqn:Hd; [auto|].
    rewrite (build_garbled _ _ _ _ _ Hb Hrc Hd). unfold prepend, trace.
    cbn [snd].
    rewrite !commands_app, commands_ensure_trace, commands_build_started.
    simpl. intros [H|[]]. discriminate H.
  - rewrite (build_fails _ _ _ _ _ Hb Hrc). unfold prepend, trace. cbn [snd].
    rewrite !commands_app, commands_ensure_trace.
    simpl. intros [H|[]]. discriminate H.
Qed.

(** C8. The removal command is run unchecked and its result is not read:
    in a run that launches it, whatever it exits with, the handler goes on
    to launch the run command, and the outcome is the one the run command
    decides. *)
Theorem removal_failure_swallowed (b k : completed) (x : sys completed)
    (w4 w5 w6 : W) :
  spawn (build_argv (filename file)
           (located_manifest (extract_dir (filename file)) tree)) w3
  = (Done b, w4) ->
  In (rm_argv (filename file)) (commands (trace (upload_file request w0))) ->
  spawn (rm_argv (filename file)) w4 = (Done k, w5) ->
  spawn (run_argv (filename file)) w5 = (x, w6) ->
  exists t : list event,
    upload_file request w0 = (launch_outcome (filename file) x, w6, t)
    /\ commands t
       = [build_argv (filename file)
            (located_manifest (extract_dir (filename file)) tree);
          rm_argv (filename file);
          run_argv (filename file)].
Proof.
  intros Hb Hin Hk Hr.
  destruct (removal_reached b w4 Hb Hin) as [Hrc Hd].
  rewrite upload_at_build. destruct x as [r|n].
  - rewrite (build_succeeds _ _ _ _ _ _ _ _ _ Hb Hrc Hd Hk Hr). unfold prepend.
    eexists. split; [reflexivity|].
    rewrite !commands_app, commands_ensure_trace, commands_deploy_trace.
    reflexivity.
  - rewrite (build_then_run_raises _ _ _ _ _ _ _ _ _ Hb Hrc Hd Hk Hr).
    unfold prepend. eexists. split; [reflexivity|].
    rewrite !commands_app, commands_ensure_trace, commands_built_trace.
    reflexivity.
Qed.


End Located.
End Extracted.
End Pipeline.

(** * The Dockerfile step, run twice *)

Section Descriptor.
Context {W B : Type} {os : OS W B} {py : PyStr}.

(** C6, as the code has it. The step writes the default text exactly when
    the path does not exist, and leaves the world alone when it does. A
    second run on the same path finds the file, writes nothing and leaves
    the world of the first run: the content is the same, and the two runs
    together make at most one write (one when the path did not exist, none
    when it did). The second hypothesis is the contract of [open] and
    [write]: the path then holds the text written. *)
Theorem dockerfile_step_idempotent (path : string) (w w1 : W) :
  dockerfile_step path w w1 ->
  (exists_at path w = false -> lookup path w1 = Some (File DEFAULT_DOCKERFILE)) ->
  outcome (ensure_dockerfile path w) = Val tt
  /\ writes (trace (ensure_dockerfile path w))
     = (if exists_at path w then [] else [(path, DEFAULT_DOCKERFILE)])
  /\ (exists_at path w = true -> final_world (ensure_dockerfile path w) = w)
  /\ outcome (ensure_twice path w) = Val tt
  /\ final_world (ensure_twice path w) = final_world (ensure_dockerfile path w)
  /\ writes (trace (ensure_twice path w)) = writes (trace (ensure_dockerfile path w)).
Proof.
  intros Hstep Hwritten.
  assert (Hthen : exists_at path w1 = true).
  { destruct (exists_at path w) eqn:E.
    - unfold dockerfile_step in Hstep. rewrite E in Hstep. subst w1. exact E.
    - unfold exists_at. rewrite (Hwritten eq_refl). reflexivity. }
  assert (Hsecond : dockerfile_step path w1 w1).
  { unfold dockerfile_step. rewrite Hthen. reflexivity. }
  pose proof (ensure_dockerfile_step path w w1 Hstep) as H1.
  pose proof (ensure_dockerfile_step path w1 w1 Hsecond) as H2.
  rewrite Hthen in H2.
  assert (H12 : ensure_twice path w
                = (Val tt, w1,
                   (ensure_trace (exists_at path w) path ++ ensure_trace true path)%list)).
  { unfold ensure_twice. rewrite (bind_val _ _ _ _ _ _ H1), H2. reflexivity. }
  rewrite H12, H1. unfold outcome, final_world, trace. cbn [fst snd].
  rewrite writes_app, !writes_ensure_trace, app_nil_r.
  repeat split.
  intros E. unfold dockerfile_step in Hstep. rewrite E in Hstep. exact Hstep.
Qed.

End Descriptor.

(** * Names *)

Section Names.
Context {W B : Type} {os : OS W B} {py : PyStr}.

Lemma prepend_val_inv {A : Type} (t u : list event) (x : res A * W * list event)
    (a : A) (w : W) :
  prepend t x = (Val a, w, u) -> exists u', x = (Val a, w, u').
Proof.
  destruct x as [[r w'] t']. simpl. intros H. inversion H; subst. eauto.
Qed.

Lemma bind_val_inv {A C : Type} (m : M W A) (k : A -> M W C) (w w' : W) (c : C)
    (t : list event) :
  bind m k w = (Val c, w', t) ->
  exists a w1 t1 t2, m w = (Val a, w1, t1) /\ k a w1 = (Val c, w', t2).
Proof.
  unfold bind. destruct (m w) as [[[a|e] w1] t1]; [|discriminate].
  intros H. apply prepend_val_inv in H. destruct H as [t2 H].
  exists a, w1, t1, t2. auto.
Qed.

(** A response of [build_and_run] is the success object with 200 or a
    Docker error with 500. *)
Lemma build_and_run_response (fname pjp : string) (w w' : W)
    (body : list (string * string)) (status : Z) (t : list event) :
  build_and_run fname pjp w = (Val (body, status), w', t) ->
  (status = 200%Z /\ body = success_body fname)
  \/ (status = 500%Z /\ exists err, body = error_body ("Docker error: " ++ err)).
Proof.
  unfold build_and_run, try_except.
  match goal with |- context [match ?m w with _ => _ end] =>
    destruct (m w) as [[[resp|e] w1] t1] eqn:E end.
  - intros H. inversion H; subst.
    repeat (apply bind_val_inv in E; destruct E as (? & ? & ? & ? & _ & E)).
    inversion E; subst. left. auto.
  - destruct e as [rc cmd out err|n]; [|discriminate].
    intros H. apply prepend_val_inv in H. destruct H as [u H].
    rewrite bind_emit, bind_decode in H.
    destruct (Py.decode err) as [text|]; [|discriminate].
    inversion H; subst. right. split; [reflexivity|]. exists text. reflexivity.
Qed.

(** A 200 answer of the handler carries the names made from the filename of
    the upload. *)
Lemma success_response (request : Request B) (w w' : W)
    (body : list (string * string)) (t : list event) :
  upload_file request w = (Val (body, 200%Z), w', t) ->
  exists file,
    files_get "file" (files request) = Some file
    /\ body = success_body (filename file).
Proof.
  unfold upload_file.
  destruct (files_get "file" (files request)) as [file|]; [|discriminate].
  destruct (String.eqb (filename file) EmptyString); [discriminate|].
  destruct (file_truthy file && allowed_file (filename file)); [|discriminate].
  intros H. exists file. split; [reflexivity|].
  do 5 (apply bind_val_inv in H; destruct H as (? & ? & ? & ? & _ & H)).
  match type of H with (if ?c then _ else _) _ = _ => destruct c end;
    [discriminate|].
  apply bind_val_inv in H. destruct H as (? & ? & ? & ? & _ & H).
  apply build_and_run_response in H.
  destruct H as [[_ H]|[H _]]; [exact H|discriminate].
Qed.

End Names.

(** * Where the upload lands *)

Lemma is_prefix_app (c a b : list string) :
  is_prefix (c ++ a) (c ++ b) = is_prefix a b.
Proof.
  induction c as [|x c IH]; simpl; [reflexivity|].
  rewrite String.eqb_refl. exact IH.
Qed.

(** Seen from any directory, [sub/../name] is [name] in that directory:
    next to [sub], not inside it. *)
Lemma climbing_is_outside (cwd : list string) :
  is_prefix (Lexical.norm (rev cwd) ["uploads"])
            (Lexical.norm (rev cwd) ["uploads"; ".."; "x.zip"]) = false
  /\ is_prefix (Lexical.norm (rev cwd) ["builds"])
               (Lexical.norm (rev cwd) ["builds"; ".."; "x"]) = false.
Proof.
  simpl. rewrite rev_involutive, !is_prefix_app. split; reflexivity.
Qed.

(** Seen from any directory, [/tmp/x.zip] is not under [uploads] and
    [/tmp/x] is not under [builds]. *)
Lemma absolute_is_outside (cwd : list string) :
  is_prefix (Lexical.norm (rev cwd) ["uploads"]) ["tmp"; "x.zip"] = false
  /\ is_prefix (Lexical.norm (rev cwd) ["builds"]) ["tmp"; "x"] = false.
Proof.
  simpl. rewrite rev_involutive.
  destruct cwd as [|a [|b cwd]]; simpl.
  - split; reflexivity.
  - split; apply andb_false_r.
  - destruct (String.eqb a "tmp"); [|split; reflexivity]. simpl.
    destruct cwd; simpl; split; apply andb_false_r.
Qed.

Section Verbatim.
Context {W B : Type} {os : OS W B} {py : PyStr}.
Variables (request : Request B) (file : FileStorage B) (w0 w1 : W).

Lemma trace_prepend {A : Type} (t : list event) (x : res A * W * list event) :
  trace (prepend t x) = (t ++ trace x)%list.
Proof. destruct x as [[r w] u]. reflexivity. Qed.

(** C10, as the code has it. The filename of the client goes unchanged into
    the path the upload is saved at, [join(UPLOAD_FOLDER, filename)], and,
    less its extension, into the directory it is unpacked in,
    [join(BUILD_FOLDER, splitext(filename)[0])]. Acceptance asks only for
    the text after the last dot to be [zip] up to case. So the accepted
    names [../x.zip] and [/tmp/x.zip] are saved and unpacked outside the two
    folders, from whichever directory the server runs. *)
Theorem filename_used_verbatim :
  files_get "file" (files request) = Some file ->
  has_accepted_extension (filename file) ->
  storage_save (stream file) (OsPath.join UPLOAD_FOLDER (filename file)) w0
  = (Done tt, w1) ->
  (exists rest,
      trace (upload_file request w0)
      = EvSave (OsPath.join UPLOAD_FOLDER (filename file))
        :: EvLog INFO ("File saved at " ++ OsPath.join UPLOAD_FOLDER (filename file))
        :: EvUnpack (OsPath.join UPLOAD_FOLDER (filename file))
                    (OsPath.join BUILD_FOLDER
                       (fst (OsPath.splitext (filename file))))
        :: rest)
  /\ (forall fname, allowed_file fname = true <-> has_accepted_extension fname)
  /\ (allowed_file "../x.zip" = true
      /\ forall cwd,
           lies_inside cwd UPLOAD_FOLDER (save_path "../x.zip") = false
           /\ lies_inside cwd BUILD_FOLDER (extract_dir "../x.zip") = false)
  /\ (allowed_file "/tmp/x.zip" = true
      /\ forall cwd,
           lies_inside cwd UPLOAD_FOLDER (save_path "/tmp/x.zip") = false
           /\ lies_inside cwd BUILD_FOLDER (extract_dir "/tmp/x.zip") = false).
Proof.
  intros Hfield Hext Hsave.
  assert (Hok : allowed_file (filename file) = true)
    by (apply allowed_file_iff; exact Hext).
  split.
  { change (OsPath.join UPLOAD_FOLDER (filename file))
      with (save_path (filename file)) in *.
    change (OsPath.join BUILD_FOLDER (fst (OsPath.splitext (filename file))))
      with (extract_dir (filename file)).
    destruct (unpack_archive (save_path (filename file))
                (extract_dir (filename file)) w1) as [[[]|n] w2] eqn:Hu.
    - rewrite (upload_extracted request file Hfield Hok w0 w1 w2 Hsave Hu).
      rewrite trace_prepend. unfold prefix_trace. simpl.
      eexists. reflexivity.
    - rewrite (upload_extract_fails request file Hfield Hok w0 w1 w2 Hsave n Hu).
      exists []. reflexivity. }
  split; [exact allowed_file_iff|].
  split; (split; [reflexivity|]); intros cwd.
  - exact (climbing_is_outside cwd).
  - exact (absolute_is_outside cwd).
Qed.

End Verbatim.

(** * The build context is the directory of the manifest *)

Lemma endswith_app (c : ascii) (a b : string) :
  Py.truthy b = true -> Py.endswith c (a ++ b) = Py.endswith c b.
Proof.
  intros Hb. induction a as [|x a IH]; [reflexivity|].
  simpl. destruct (a ++ b) as [|y s] eqn:E.
  - destruct a; simpl in E; [subst b|]; discriminate.
  - exact IH.
Qed.

Lemma endswith_contains (c : ascii) (s : string) :
  Py.contains c s = false -> Py.endswith c s = false.
Proof.
  induction s as [|a s IH]; [reflexivity|].
  simpl. intros H. apply orb_false_iff in H. destruct H as [Ha Hs].
  destruct s; [exact Ha|apply IH; exact Hs].
Qed.

Lemma contains_app (c : ascii) (a b : string) :
  Py.contains c (a ++ b) = Py.contains c a || Py.contains c b.
Proof.
  induction a as [|x a IH]; simpl; [reflexivity|].
  rewrite IH, orb_assoc. reflexivity.
Qed.

Lemma join_regular (top name : string) :
  regular top = true -> proper_name name = true ->
  regular (OsPath.join top name) = true
  /\ OsPath.dirname (OsPath.join top name) = top.
Proof.
  unfold regular, proper_name. intros Ht Hn.
  apply andb_true_iff in Ht. destruct Ht as [Ht He].
  apply andb_true_iff in Hn. destruct Hn as [Hn Hc].
  apply negb_true_iff in He. apply negb_true_iff in Hc.
  split; [|apply dirname_join; assumption].
  unfold OsPath.join. rewrite (startswith_contains _ _ Hc), Ht, He. simpl.
  rewrite (truthy_app_l _ _ Ht). simpl.
  rewrite (endswith_app _ top (String Py.sep name) eq_refl).
  destruct name as [|a name]; [discriminate Hn|].
  change (Py.endswith Py.sep (String Py.sep (String a name)))
    with (Py.endswith Py.sep (String a name)).
  rewrite (endswith_contains _ _ Hc). reflexivity.
Qed.

(** Every directory of a walk from a regular top through a tree of proper
    names is regular. *)
Lemma walk_regular (n : node) :
  forall top,
    regular top = true -> proper_tree n = true ->
    Forall (fun tr => regular (fst (fst tr)) = true) (walk top n).
Proof.
  induction n as [c|es IH] using node_induction; intros top Ht Hp.
  - constructor.
  - simpl. constructor; [exact Ht|].
    simpl in Hp. induction IH as [|[k sub] l Hsub _ IHl]; [constructor|].
    apply andb_true_iff in Hp. destruct Hp as [Hp Hl].
    apply andb_true_iff in Hp. destruct Hp as [Hk Hs].
    apply Forall_app. split.
    + apply Hsub; [|exact Hs]. apply (join_regular top k Ht Hk).
    + apply IHl. exact Hl.
Qed.

Lemma accepted_ends_well (fname : string) :
  allowed_file fname = true -> regular fname = true.
Proof.
  intros H. apply allowed_file_iff in H. destruct H as (stem & ext & -> & Hl).
  unfold regular.
  assert (Hne : Py.truthy (String Py.extsep ext) = true) by reflexivity.
  rewrite (endswith_app _ stem _ Hne).
  assert (Ht : Py.truthy (stem ++ String Py.extsep ext) = true)
    by (destruct stem; reflexivity).
  rewrite Ht. simpl.
  destruct ext as [|c1 [|c2 [|c3 [|c4 ext]]]]; try discriminate.
  simpl in Hl. inversion Hl as [[H1 H2 H3]].
  destruct c3 as [[] [] [] [] [] [] [] []]; try discriminate; reflexivity.
Qed.

Lemma tail_has_no_sep (p : string) :
  Py.contains Py.sep (OsPath.tail_from_last_sep p) = false.
Proof.
  unfold OsPath.tail_from_last_sep.
  destruct (Py.rsplit1 Py.sep p) as [[l r]|] eqn:E.
  - apply rsplit1_some in E. apply E.
  - apply contains_rsplit1_none. exact E.
Qed.

Lemma all_chars_truthy (c : ascii) (s : string) :
  Py.all_chars c s = false -> Py.truthy s = true.
Proof. destruct s; [discriminate|reflexivity]. Qed.

(** The root [splitext] leaves of an accepted name is not empty and does
    not end with a separator. *)
Lemma splitext_root_regular (fname : string) :
  allowed_file fname = true -> regular (fst (OsPath.splitext fname)) = true.
Proof.
  intros H. unfold OsPath.splitext.
  destruct (Py.rsplit1 Py.extsep (OsPath.tail_from_last_sep fname))
    as [[stem ext]|] eqn:E; [|exact (accepted_ends_well _ H)].
  destruct (Py.all_chars Py.extsep stem) eqn:Ea; [exact (accepted_ends_well _ H)|].
  simpl. apply rsplit1_some in E. destruct E as [E _].
  pose proof (tail_has_no_sep fname) as Hs. rewrite E, contains_app in Hs.
  apply orb_false_iff in Hs. destruct Hs as [Hs _].
  pose proof (all_chars_truthy _ _ Ea) as Ht.
  unfold regular. rewrite (endswith_app _ _ _ Ht), (endswith_contains _ _ Hs).
  destruct (OsPath.head_to_last_sep fname); simpl; [rewrite Ht|]; reflexivity.
Qed.

Lemma extract_dir_regular (fname : string) :
  allowed_file fname = true -> regular (extract_dir fname) = true.
Proof.
  intros H. pose proof (splitext_root_regular fname H) as Hr.
  unfold extract_dir, OsPath.join.
  destruct (Py.startswith Py.sep (fst (OsPath.splitext fname))); [exact Hr|].
  change (negb (Py.truthy BUILD_FOLDER) || Py.endswith Py.sep BUILD_FOLDER) with false.
  cbv iota. unfold regular in *.
  apply andb_true_iff in Hr. destruct Hr as [Ht He].
  assert (Hne : Py.truthy (String Py.sep (fst (OsPath.splitext fname))) = true)
    by reflexivity.
  rewrite (endswith_app _ BUILD_FOLDER _ Hne).
  destruct (fst (OsPath.splitext fname)) as [|a root]; [discriminate Ht|].
  change (Py.endswith Py.sep (String Py.sep (String a root)))
    with (Py.endswith Py.sep (String a root)).
  rewrite He. reflexivity.
Qed.

(** X16. In a tree of proper names, the manifest [find_file] locates for an
    accepted upload lies in a walked directory that lists it, [dirname]
    gives that directory back, and the Dockerfile path is in it: the
    build context of C1 is the directory that contains [package.json]. *)
Lemma build_context_is_manifest_directory (fname : string) (tree : node) :
  allowed_file fname = true ->
  proper_tree tree = true ->
  contains_file "package.json" tree = true ->
  exists dir ds fs,
    In (dir, ds, fs) (walk (extract_dir fname) tree)
    /\ In "package.json" fs
    /\ located_manifest (extract_dir fname) tree = OsPath.join dir "package.json"
    /\ OsPath.dirname (located_manifest (extract_dir fname) tree) = dir
    /\ dockerfile_of (located_manifest (extract_dir fname) tree)
       = OsPath.join dir "Dockerfile".
Proof.
  intros Hok Hp Hc.
  destruct (find_file_loop_found "package.json" tree (extract_dir fname) Hc) as [p Hf].
  destruct (find_file_loop_some _ _ _ Hf) as (dir & ds & fs & Hin & Hmem & ->).
  pose proof (walk_regular tree _ (extract_dir_regular fname Hok) Hp) as Hall.
  rewrite Forall_forall in Hall. specialize (Hall _ Hin). simpl in Hall.
  assert (Hloc : located_manifest (extract_dir fname) tree
                 = OsPath.join dir "package.json").
  { unfold located_manifest. rewrite Hf. reflexivity. }
  assert (Hd : OsPath.dirname (OsPath.join dir "package.json") = dir).
  { apply (join_regular dir "package.json" Hall). reflexivity. }
  exists dir, ds, fs. split; [exact Hin|]. split.
  { unfold Py.mem in Hmem. apply existsb_exists in Hmem.
    destruct Hmem as (x & Hx & Heq). apply String.eqb_eq in Heq. subst x. exact Hx. }
  split; [exact Hloc|]. split.
  - rewrite Hloc. exact Hd.
  - unfold dockerfile_of. rewrite Hloc, Hd. reflexivity.
Qed.

(** * The claims at work on the reference operating system *)

Lemma demo_accepted : has_accepted_extension (filename Demo.file).
Proof. exists "demo", "zip". split; reflexivity. Qed.

Lemma broken_accepted : has_accepted_extension (filename Broken.file).
Proof. exists "x", "zip". split; reflexivity. Qed.

Lemma bad_accepted : has_accepted_extension (filename Other.bad_file).
Proof. exists "bad", "zip". split; reflexivity. Qed.

Lemma noapp_accepted : has_accepted_extension (filename Other.noapp_file).
Proof. exists "noapp", "zip". split; reflexivity. Qed.

Lemma climbing_accepted : has_accepted_extension (filename Other.climbing_file).
Proof. exists "../x", "zip". split; reflexivity. Qed.


(** [bad.txt] is turned down before anything happens. *)
Lemma invalid_request_rejected_witness :
  exists msg : string,
    upload_file Other.text Sim.fresh = (Val (error_body msg, 400%Z), Sim.fresh, []).
Proof.
  apply (invalid_request_rejected (os := Sim.sim_os) Other.text Sim.fresh).
  right. intros H. apply allowed_file_iff in H. discriminate H.
Defined.

(** [bad.zip] holds no archive: [ReadError] leaves the handler. *)
Lemma extraction_error_propagates_witness :
  upload_file Other.bad Sim.fresh
  = (Exc (LibraryError "ReadError"), Other.bad_saved,
     [EvSave "./uploads/bad.zip";
      EvLog INFO "File saved at ./uploads/bad.zip";
      EvUnpack "./uploads/bad.zip" "./builds/bad"]).
Proof.
  exact (extraction_error_propagates (os := Sim.sim_os) Other.bad Other.bad_file
           eq_refl bad_accepted Sim.fresh Other.bad_saved eq_refl
           "ReadError" Other.bad_saved eq_refl).
Defined.

(** The claim C3 asks for a 400 error object here; the handler gives none. *)
Lemma extraction_error_is_no_response :
  allowed_file "bad.zip" = true
  /\ Sim.decode "not an archive" = None
  /\ outcome (upload_file Other.bad Sim.fresh) = Exc (LibraryError "ReadError")
  /\ is_client_fault (outcome (upload_file Other.bad Sim.fresh)) = false.
Proof. repeat split. Qed.

(** [noapp.zip] unpacks to a tree without manifest. *)
Lemma missing_manifest_rejected_witness :
  exists t : list event,
    upload_file Other.noapp Sim.fresh
    = (Val (error_body "package.json not found in the extracted ZIP.", 400%Z),
       Other.noapp_unpacked, t)
    /\ commands t = [].
Proof.
  apply (missing_manifest_rejected (os := Sim.sim_os) Other.noapp Other.noapp_file
           eq_refl noapp_accepted Sim.fresh Other.noapp_saved eq_refl
           Other.noapp_unpacked eq_refl).
  intros tree H. vm_compute in H. inversion H. reflexivity.
Defined.


(** The container of the earlier upload of [x.zip] is still running after
    the failed rebuild. *)
Lemma failed_build_keeps_container_witness :
  final_world (upload_file Broken.request Sim.busy) = Broken.unpacked
  /\ ~ In ["docker"; "rm"; "-f"; "x-container"]
          (commands (trace (upload_file Broken.request Sim.busy)))
  /\ Sim.containers (final_world (upload_file Broken.request Sim.busy))
     = ["x-container"].
Proof.
  destruct (failed_build_keeps_container (os := Sim.sim_os) (py := ascii_names)
              Broken.request Broken.file
              eq_refl broken_accepted Sim.busy Broken.saved eq_refl
              Broken.unpacked eq_refl Broken.tree eq_refl eq_refl
              Broken.unpacked eq_refl Broken.build_result Broken.unpacked eq_refl
              ltac:(discriminate))
    as (Hw & Hrm & _ & Hobs).
  split; [exact Hw|]. split; [exact Hrm|].
  exact (Hobs _ Sim.containers eq_refl eq_refl eq_refl eq_refl).
Defined.

(** No container [demo-container] exists on the fresh server: the removal
    exits with 1 and the upload succeeds all the same. *)
Lemma removal_failure_swallowed_witness :
  returncode Demo.rm_result = 1%Z
  /\ exists t : list event,
       upload_file Demo.request Sim.fresh
       = (Val (success_body "demo.zip", 200%Z), Demo.running, t)
       /\ commands t
          = [["docker"; "build"; "-t"; "demo-image"; "./builds/demo/sub/pkg"];
             ["docker"; "rm"; "-f"; "demo-container"];
             ["docker"; "run"; "-d"; "--name"; "demo-container"; "-p";
              "3000:3000"; "demo-image"]].
Proof.
  split; [reflexivity|].
  assert (Hin : In (rm_argv (filename Demo.file))
                   (commands (trace (upload_file Demo.request Sim.fresh))))
    by (vm_compute; right; left; reflexivity).
  exact (removal_failure_swallowed (os := Sim.sim_os) (py := ascii_names)
           Demo.request Demo.file
           eq_refl demo_accepted Sim.fresh Demo.saved eq_refl
           Demo.unpacked eq_refl Demo.tree eq_refl eq_refl
           Demo.described eq_refl
           Demo.build_result Demo.rm_result (Done Demo.run_result)
           Demo.built Demo.built Demo.running
           eq_refl Hin eq_refl eq_refl).
Defined.

(** The Dockerfile step on the unpacked [demo.zip], once and twice. *)
Lemma dockerfile_step_idempotent_witness :
  writes (trace (ensure_dockerfile "./builds/demo/sub/pkg/Dockerfile" Demo.unpacked))
  = [("./builds/demo/sub/pkg/Dockerfile", DEFAULT_DOCKERFILE)]
  /\ final_world (ensure_twice "./builds/demo/sub/pkg/Dockerfile" Demo.unpacked)
     = final_world (ensure_dockerfile "./builds/demo/sub/pkg/Dockerfile" Demo.unpacked)
  /\ writes (trace (ensure_twice "./builds/demo/sub/pkg/Dockerfile" Demo.unpacked))
     = [("./builds/demo/sub/pkg/Dockerfile", DEFAULT_DOCKERFILE)].
Proof.
  destruct (dockerfile_step_idempotent (os := Sim.sim_os)
              "./builds/demo/sub/pkg/Dockerfile" Demo.unpacked Demo.described
              eq_refl (fun _ => eq_refl))
    as (_ & H1 & _ & _ & H2 & H3).
  split; [exact H1|]. split; [exact H2|]. rewrite H3. exact H1.
Defined.

(** The claim C6 counts exactly one write for two runs; on a directory
    that has its Dockerfile there is none. *)
Lemma two_runs_without_write :
  exists_at "./builds/x/Dockerfile" Broken.unpacked = true
  /\ outcome (ensure_twice "./builds/x/Dockerfile" Broken.unpacked) = Val tt
  /\ writes (trace (ensure_twice "./builds/x/Dockerfile" Broken.unpacked)) = [].
Proof. repeat split. Qed.



(** The claim C4 speaks of the tree of the archive. The second [demo.zip]
    holds no manifest at any depth; unpacked into the folder the first
    [demo.zip] was unpacked into, it is built and deployed from the
    manifest of the first. *)
Lemma stale_manifest_is_built :
  allowed_file (filename Stale.file) = true
  /\ Sim.decode (stream Stale.file) = Some [("readme.txt", "hello")]
  /\ manifest_at "demo.zip" (final_world (upload_file Stale.request Demo.running))
     = Some "./builds/demo/sub/pkg/package.json"
  /\ outcome (upload_file Stale.request Demo.running)
     = Val ([("message", "File uploaded and Docker container started successfully");
             ("docker_image", "demo-image");
             ("docker_container", "demo-container")], 200%Z)
  /\ commands (trace (upload_file Stale.request Demo.running))
     = [["docker"; "build"; "-t"; "demo-image"; "./builds/demo/sub/pkg"];
        ["docker"; "rm"; "-f"; "demo-container"];
        ["docker"; "run"; "-d"; "--name"; "demo-container"; "-p"; "3000:3000";
         "demo-image"]].
Proof. repeat split. Qed.


(** The claim C7 names the base name of the archive with its extension
    stripped. The handler strips the extension [os.path.splitext] sees and
    keeps the rest: the directories a client sends stay in the names, and
    a name of a leading dot and [zip] has no extension to strip. *)
Lemma names_are_not_base_names :
  allowed_file "../x.zip" = true
  /\ base_name "../x.zip" = "x"
  /\ outcome (upload_file Other.climbing Sim.fresh)
     = Val ([("message", "File uploaded and Docker container started successfully");
             ("docker_image", "../x-image");
             ("docker_container", "../x-container")], 200%Z)
  /\ allowed_file "a/B.zip" = true
  /\ base_name "a/B.zip" = "B"
  /\ image_name "a/B.zip" = "a/b-image"
  /\ container_name "a/B.zip" = "a/b-container"
  /\ allowed_file ".zip" = true
  /\ base_name ".zip" = EmptyString
  /\ image_name ".zip" = ".zip-image"
  /\ container_name ".zip" = ".zip-container".
Proof. repeat split. Qed.

(** [../x.zip] is saved next to the uploads folder, not in it. *)
Lemma filename_used_verbatim_witness :
  (exists rest,
      trace (upload_file Other.climbing Sim.fresh)
      = EvSave "./uploads/../x.zip"
        :: EvLog INFO "File saved at ./uploads/../x.zip"
        :: EvUnpack "./uploads/../x.zip" "./builds/../x"
        :: rest)
  /\ Sim.sim_lookup "x.zip" Other.climbing_saved = Some (File "PK|package.json|{}")
  /\ Sim.sim_lookup "uploads" Other.climbing_saved = Some (Dir []).
Proof.
  destruct (filename_used_verbatim (os := Sim.sim_os) Other.climbing
              Other.climbing_file Sim.fresh Other.climbing_saved
              eq_refl climbing_accepted eq_refl)
    as (H & _).
  split; [exact H|]. split; reflexivity.
Defined.

(** The claim C10 names the bare [.zip] as a name that escapes; it is
    accepted, but it is saved inside the uploads folder and unpacked inside
    the builds folder. *)
Lemma bare_zip_stays_inside :
  allowed_file ".zip" = true
  /\ save_path ".zip" = "./uploads/.zip"
  /\ extract_dir ".zip" = "./builds/.zip"
  /\ lies_inside (Sim.cwd Sim.fresh) UPLOAD_FOLDER (save_path ".zip") = true
  /\ lies_inside (Sim.cwd Sim.fresh) BUILD_FOLDER (extract_dir ".zip") = true.
Proof. repeat split. Qed.

(** * Every way through the handler *)

Section Paths.
Context {W B : Type} {os : OS W B} {py : PyStr}.
Local Open Scope py_scope.

Lemma build_and_run_path (fname pjp : string) (w : W) :
  (exists n w4, spawn (build_argv fname pjp) w = (Failed n, w4)
     /\ build_and_run fname pjp w
        = (Exc (LibraryError n), w4, [EvRun (build_argv fname pjp)]))
  \/ (exists b w4, spawn (build_argv fname pjp) w = (Done b, w4)
        /\ returncode b <> 0%Z
        /\ build_and_run fname pjp w
           = (docker_error b, w4, build_failed_trace fname pjp b))
  \/ (exists b w4, spawn (build_argv fname pjp) w = (Done b, w4)
        /\ returncode b = 0%Z
        /\ build_decodes b = false
        /\ build_and_run fname pjp w
           = (Exc UnicodeDecodeError, w4,
              EvRun (build_argv fname pjp) :: build_logs b))
  \/ (exists b w4 n w5, spawn (build_argv fname pjp) w = (Done b, w4)
        /\ returncode b = 0%Z
        /\ build_decodes b = true
        /\ spawn (rm_argv fname) w4 = (Failed n, w5)
        /\ build_and_run fname pjp w
           = (Exc (LibraryError n), w5, built_trace fname pjp b))
  \/ (exists b w4 k w5 n w6, spawn (build_argv fname pjp) w = (Done b, w4)
        /\ returncode b = 0%Z
        /\ build_decodes b = true
        /\ spawn (rm_argv fname) w4 = (Done k, w5)
        /\ spawn (run_argv fname) w5 = (Failed n, w6)
        /\ build_and_run fname pjp w
           = (Exc (LibraryError n), w6,
              (built_trace fname pjp b ++ [EvRun (run_argv fname)])%list))
  \/ (exists b w4 k w5 r w6, spawn (build_argv fname pjp) w = (Done b, w4)
        /\ returncode b = 0%Z
        /\ build_decodes b = true
        /\ spawn (rm_argv fname) w4 = (Done k, w5)
        /\ spawn (run_argv fname) w5 = (Done r, w6)
        /\ build_and_run fname pjp w
           = (run_outcome fname r, w6, deploy_trace fname pjp b r)).
Proof.
  destruct (spawn (build_argv fname pjp) w) as [[b|n] w4] eqn:Hb.
  2:{ left. exists n, w4. split; [reflexivity|].
      unfold build_and_run, try_except.
      erewrite bind_exc by (apply subprocess_run_raises; exact Hb). reflexivity. }
  right. destruct (Z.eq_dec (returncode b) 0) as [Hrc|Hrc].
  2:{ left. exists b, w4. split; [reflexivity|]. split; [exact Hrc|].
      apply (build_fails _ _ _ _ _ Hb Hrc). }
  right. destruct (build_decodes b) eqn:Hd.
  2:{ left. exists b, w4. repeat (split; [first [reflexivity|assumption]|]).
      apply (build_garbled _ _ _ _ _ Hb Hrc Hd). }
  right.
  destruct (spawn (rm_argv fname) w4) as [[k|n] w5] eqn:Hk.
  2:{ left. exists b, w4, n, w5. repeat (split; [first [reflexivity|assumption]|]).
      apply (build_then_rm_raises _ _ _ _ _ _ _ Hb Hrc Hd Hk). }
  right.
  destruct (spawn (run_argv fname) w5) as [[r|n] w6] eqn:Hr.
  2:{ left. exists b, w4, k, w5, n, w6.
      repeat (split; [first [reflexivity|assumption]|]).
      apply (build_then_run_raises _ _ _ _ _ _ _ _ _ Hb Hrc Hd Hk Hr). }
  right. exists b, w4, k, w5, r, w6.
  repeat (split; [first [reflexivity|assumption]|]).
  apply (build_succeeds _ _ _ _ _ _ _ _ _ Hb Hrc Hd Hk Hr).
Qed.

Lemma upload_save_raises (request : Request B) (file : FileStorage B)
    (w0 w1 : W) (n : string) :
  files_get "file" (files request) = Some file ->
  allowed_file (filename file) = true ->
  storage_save (stream file) (save_path (filename file)) w0 = (Failed n, w1) ->
  upload_file request w0
  = (Exc (LibraryError n), w1, [EvSave (save_path (filename file))]).
Proof.
  intros Hf Hok Hs. rewrite (upload_accepted request file Hf Hok).
  apply (bind_call_failed _ _ _ _ _ _ Hs).
Qed.

(** Whatever the request and the world, the run of [upload_file] is one of
    the ways of [upload_path]. *)
Lemma upload_file_path (request : Request B) (w0 : W) :
  upload_path request w0 (upload_file request w0).
Proof.
  destruct (files_get "file" (files request)) as [file|] eqn:Hf.
  2:{ unfold upload_file. rewrite Hf. apply path_no_field. exact Hf. }
  destruct (String.eqb (filename file) EmptyString) eqn:He.
  { unfold upload_file. rewrite Hf, He.
    apply (path_no_name _ _ file Hf). apply String.eqb_eq. exact He. }
  destruct (allowed_file (filename file)) eqn:Hok.
  2:{ unfold upload_file. rewrite Hf, He, Hok, andb_false_r.
      apply (path_bad_format _ _ file Hf); [|exact Hok].
      apply String.eqb_neq. exact He. }
  destruct (storage_save (stream file) (save_path (filename file)) w0)
    as [[[]|n] w1] eqn:Hs.
  2:{ rewrite (upload_save_raises request file w0 w1 n Hf Hok Hs).
      apply (path_save_raises _ _ file n w1 Hf Hok Hs). }
  destruct (unpack_archive (save_path (filename file))
              (extract_dir (filename file)) w1) as [[[]|n] w2] eqn:Hu.
  2:{ rewrite (upload_extract_fails request file Hf Hok w0 w1 w2 Hs n Hu).
      apply (path_unpack_raises _ _ file n w1 w2 Hf Hok Hs Hu). }
  assert (Hun : unpacked request file w0 w1 w2) by (repeat split; assumption).
  destruct (manifest_at (filename file) w2) as [pjp|] eqn:Hm.
  2:{ rewrite (upload_no_manifest request file Hf Hok w0 w1 w2 Hs Hu Hm).
      apply (path_no_manifest _ _ file w1 w2 Hun Hm). }
  rewrite (upload_located request file Hf Hok w0 w1 w2 Hs Hu pjp Hm).
  assert (Hstep : (exists w3, dockerfile_step (dockerfile_of pjp) w2 w3)
                  \/ (exists n w3, exists_at (dockerfile_of pjp) w2 = false
                        /\ open_write (dockerfile_of pjp) DEFAULT_DOCKERFILE w2
                           = (Failed n, w3))).
  { unfold dockerfile_step.
    destruct (exists_at (dockerfile_of pjp) w2); [left; exists w2; reflexivity|].
    destruct (open_write (dockerfile_of pjp) DEFAULT_DOCKERFILE w2)
      as [[[]|n] w3] eqn:Hw.
    - left. exists w3. reflexivity.
    - right. exists n, w3. split; reflexivity. }
  destruct Hstep as [[w3 Hstep]|(n & w3 & Hex & Hw)].
  2:{ erewrite bind_exc.
      2:{ unfold ensure_dockerfile, os_path_exists. rewrite bind_query.
          fold (exists_at (dockerfile_of pjp) w2). rewrite Hex.
          change (negb false) with true. cbv iota.
          rewrite (bind_call_failed _ _ _ _ _ _ Hw). reflexivity. }
      apply (path_write_raises _ _ file n pjp w1 w2 w3 Hun Hm Hex Hw). }
  assert (Hat : at_build request file w0 w2 w3 pjp).
  { split; [exists w1; exact Hun|]. split; assumption. }
  rewrite (bind_val _ _ _ _ _ _ (ensure_dockerfile_step _ _ _ Hstep)).
  rewrite prepend_prepend. fold (until_build (filename file) pjp w2).
  destruct (build_and_run_path (filename file) pjp w3)
    as [(n & w4 & Hb & ->)
       |[(b & w4 & Hb & Hrc & ->)
        |[(b & w4 & Hb & Hrc & Hd & ->)
         |[(b & w4 & n & w5 & Hb & Hrc & Hd & Hk & ->)
          |[(b & w4 & k & w5 & n & w6 & Hb & Hrc & Hd & Hk & Hr & ->)
           |(b & w4 & k & w5 & r & w6 & Hb & Hrc & Hd & Hk & Hr & ->)]]]]];
    unfold prepend.
  - apply (path_build_raises _ _ file n pjp w2 w3 w4 Hat Hb).
  - apply (path_build_fails _ _ file pjp b w2 w3 w4 Hat Hb Hrc).
  - apply (path_build_garbled _ _ file pjp b w2 w3 w4 Hat Hb Hrc Hd).
  - apply (path_rm_raises _ _ file n pjp b w2 w3 w4 w5 Hat Hb Hrc Hd Hk).
  - apply (path_run_raises _ _ file n pjp b k w2 w3 w4 w5 w6 Hat Hb Hrc Hd Hk Hr).
  - apply (path_deployed _ _ file pjp b k r w2 w3 w4 w5 w6 Hat Hb Hrc Hd Hk Hr).
Qed.

End Paths.

Section Outcomes.
Context {W B : Type} {os : OS W B} {py : PyStr}.

Lemma commands_prefix_trace (fname : string) : commands (prefix_trace fname) = [].
Proof. reflexivity. Qed.

Lemma writes_prefix_trace (fname : string) : writes (prefix_trace fname) = [].
Proof. reflexivity. Qed.

Lemma commands_until_build (fname pjp : string) (w2 : W) :
  commands (until_build fname pjp w2) = [].
Proof.
  unfold until_build. rewrite commands_app, commands_ensure_trace. reflexivity.
Qed.

Lemma writes_until_build (fname pjp : string) (w2 : W) :
  writes (until_build fname pjp w2)
  = if exists_at (dockerfile_of pjp) w2 then []
    else [(dockerfile_of pjp, DEFAULT_DOCKERFILE)].
Proof.
  unfold until_build. rewrite writes_app, writes_ensure_trace. reflexivity.
Qed.

(** The commands of the traces of [upload_path]. *)
Ltac count_commands :=
  rewrite ?commands_app, ?commands_until_build, ?commands_build_started,
    ?commands_built_trace, ?commands_deploy_trace.

(** X6. The answers of the handler: 200 with the names of the upload, 400
    with one of the four messages of the source, 500 with a Docker error,
    or an exception of a library call. No other status is ever answered,
    and a [CalledProcessError] never leaves the handler. *)
Theorem upload_outcomes (request : Request B) (w : W) :
  (exists file,
      files_get "file" (files request) = Some file
      /\ outcome (upload_file request w)
         = Val (success_body (filename file), 200%Z))
  \/ (exists msg,
         In msg client_errors
         /\ outcome (upload_file request w) = Val (error_body msg, 400%Z))
  \/ (exists err,
         outcome (upload_file request w)
         = Val (error_body ("Docker error: " ++ err), 500%Z))
  \/ (exists n, outcome (upload_file request w) = Exc (LibraryError n)).
Proof.
  assert (Herr : forall c : completed,
             (exists err,
                 docker_error c = Val (error_body ("Docker error: " ++ err), 500%Z))
             \/ (exists n, docker_error c = Exc (LibraryError n))).
  { intros c. destruct (docker_error_cases c) as [->|[-> _]];
      [left|right]; eexists; reflexivity. }
  destruct (upload_file_path request w)
    as [Hf|file Hf|file Hf|file n w1 Hf|file n w1 w2 Hf| | |
       |file pjp b w2 w3 w4 Hat| | |
       |file pjp b k r w2 w3 w4 w5 w6 Hat];
    unfold outcome; cbn [fst];
    try (right; right; right; eexists; reflexivity);
    try (right; left; eexists; split; [|reflexivity]; simpl; tauto).
  - right. right. apply Herr.
  - destruct (run_outcome_cases (filename file) r)
      as [[_ ->]|[(_ & -> & _)|[_ ->]]].
    + left. exists file. split; [|reflexivity].
      destruct Hat as [[w1 Hun] _]. apply Hun.
    + right. right. right. eexists. reflexivity.
    + right. right. apply Herr.
Qed.

(** X7. A 400 answer comes before any Docker command and before any
    Dockerfile is written: whatever was rejected, nothing was launched and
    no Dockerfile was made. *)
Theorem client_fault_before_docker (request : Request B) (w : W)
    (body : list (string * string)) :
  outcome (upload_file request w) = Val (body, 400%Z) ->
  commands (trace (upload_file request w)) = []
  /\ writes (trace (upload_file request w)) = [].
Proof.
  destruct (upload_file_path request w)
    as [Hf|file Hf|file Hf|file n w1 Hf|file n w1 w2 Hf| | |
       |file pjp b w2 w3 w4 Hat| | |
       |file pjp b k r w2 w3 w4 w5 w6 Hat];
    unfold outcome, trace; cbn [fst snd]; intros Hout;
    try discriminate Hout; try (split; reflexivity).
  - destruct (docker_error_cases b) as [E|[E _]]; rewrite E in Hout;
      discriminate Hout.
  - destruct (run_outcome_cases (filename file) r)
      as [[_ E]|[(_ & E & _)|[_ E]]]; rewrite E in Hout; try discriminate Hout.
    destruct (docker_error_cases r) as [E'|[E' _]]; rewrite E' in Hout;
      discriminate Hout.
Qed.

(** X8. The external commands of a run are, in this order, the build, the
    removal and the run of the container of the upload, or an initial part
    of these three: nothing else is ever launched, the removal never comes
    without a build before it, nor the run without the removal. *)
Theorem commands_in_order (request : Request B) (w : W) :
  commands (trace (upload_file request w)) = []
  \/ exists file pjp,
       files_get "file" (files request) = Some file
       /\ (commands (trace (upload_file request w))
           = [build_argv (filename file) pjp]
           \/ commands (trace (upload_file request w))
              = [build_argv (filename file) pjp; rm_argv (filename file)]
           \/ commands (trace (upload_file request w))
              = [build_argv (filename file) pjp; rm_argv (filename file);
                 run_argv (filename file)]).
Proof.
  destruct (upload_file_path request w)
    as [Hf|file Hf|file Hf|file n w1 Hf|file n w1 w2 Hf
       |file w1 w2 Hun|file n pjp w1 w2 w3 Hun
       |file n pjp w2 w3 w4 Hat|file pjp b w2 w3 w4 Hat
       |file pjp b w2 w3 w4 Hat
       |file n pjp b w2 w3 w4 w5 Hat|file n pjp b k w2 w3 w4 w5 w6 Hat
       |file pjp b k r w2 w3 w4 w5 w6 Hat];
    unfold trace; cbn [snd];
    try (left; reflexivity);
    try (left; rewrite commands_app; reflexivity);
    right; exists file, pjp;
    (split; [destruct Hat as [[w1 Hun] _]; apply Hun|]);
    count_commands.
  - left. reflexivity.
  - left. reflexivity.
  - left. reflexivity.
  - right. left. reflexivity.
  - right. right. reflexivity.
  - right. right. reflexivity.
Qed.

(** X9. A 200 answer is given only after a build that exited zero, a
    removal that ran to its end and a run that exited zero, launched in
    this order; the world the handler leaves is the one the run command
    left. *)
Theorem success_needs_build_and_run (request : Request B) (w : W)
    (body : list (string * string)) :
  outcome (upload_file request w) = Val (body, 200%Z) ->
  exists file pjp w3 w4 w5 b k r,
    files_get "file" (files request) = Some file
    /\ spawn (build_argv (filename file) pjp) w3 = (Done b, w4)
    /\ returncode b = 0%Z
    /\ spawn (rm_argv (filename file)) w4 = (Done k, w5)
    /\ spawn (run_argv (filename file)) w5
       = (Done r, final_world (upload_file request w))
    /\ returncode r = 0%Z
    /\ commands (trace (upload_file request w))
       = [build_argv (filename file) pjp; rm_argv (filename file);
          run_argv (filename file)].
Proof.
  destruct (upload_file_path request w)
    as [Hf|file Hf|file Hf|file n w1 Hf|file n w1 w2 Hf| | |
       |file pjp b w2 w3 w4 Hat| | |
       |file pjp b k r w2 w3 w4 w5 w6 Hat Hb Hrc Hd Hk Hr];
    unfold outcome, final_world, trace; cbn [fst snd]; intros Hout;
    try discriminate Hout.
  - destruct (docker_error_cases b) as [E|[E _]]; rewrite E in Hout;
      discriminate Hout.
  - destruct (run_outcome_cases (filename file) r)
      as [[Er E]|[(_ & E & _)|[_ E]]]; rewrite E in Hout; try discriminate Hout.
    2:{ destruct (docker_error_cases r) as [E'|[E' _]]; rewrite E' in Hout;
          discriminate Hout. }
    exists file, pjp, w3, w4, w5, b, k, r.
    split; [destruct Hat as [[w1 Hun] _]; apply Hun|].
    repeat (split; [assumption|]).
    count_commands. reflexivity.
Qed.

(** X10. A 500 answer is given only when the build command or the run
    command exited non-zero, and it carries the standard error of that
    command; after a failed build nothing else was launched, after a
    failed run the build and the removal were. *)
Theorem server_error_means_docker_failed (request : Request B) (w : W)
    (body : list (string * string)) :
  outcome (upload_file request w) = Val (body, 500%Z) ->
  exists file pjp c wa,
    files_get "file" (files request) = Some file
    /\ body = error_body ("Docker error: " ++ stderr c)
    /\ returncode c <> 0%Z
    /\ ((spawn (build_argv (filename file) pjp) wa
         = (Done c, final_world (upload_file request w))
         /\ commands (trace (upload_file request w))
            = [build_argv (filename file) pjp])
        \/ (spawn (run_argv (filename file)) wa
            = (Done c, final_world (upload_file request w))
            /\ commands (trace (upload_file request w))
               = [build_argv (filename file) pjp; rm_argv (filename file);
                  run_argv (filename file)])).
Proof.
  destruct (upload_file_path request w)
    as [Hf|file Hf|file Hf|file n w1 Hf|file n w1 w2 Hf| | |
       |file pjp b w2 w3 w4 Hat Hb Hrc| | |
       |file pjp b k r w2 w3 w4 w5 w6 Hat Hb Hrc Hd Hk Hr];
    unfold outcome, final_world, trace; cbn [fst snd]; intros Hout;
    try discriminate Hout.
  - destruct (docker_error_cases b) as [E|[E _]]; rewrite E in Hout;
      [|discriminate Hout].
    inversion Hout; subst body. exists file, pjp, b, w3.
    split; [destruct Hat as [[w1 Hun] _]; apply Hun|].
    split; [reflexivity|]. split; [exact Hrc|]. left. split; [exact Hb|].
    count_commands. reflexivity.
  - destruct (run_outcome_cases (filename file) r)
      as [[_ E]|[(_ & E & _)|[Er E]]]; rewrite E in Hout; try discriminate Hout.
    destruct (docker_error_cases r) as [E'|[E' _]]; rewrite E' in Hout;
      [|discriminate Hout].
    inversion Hout; subst body. exists file, pjp, r, w5.
    split; [destruct Hat as [[w1 Hun] _]; apply Hun|].
    split; [reflexivity|]. split; [exact Er|].
    right. split; [exact Hr|].
    count_commands. reflexivity.
Qed.


(** X12. The handler never writes over a Dockerfile: a run makes at most
    one [open(path, 'w')], with the default text, at the path next to the
    manifest it located, and only when that path did not exist in the
    unpacked tree. *)
Theorem dockerfile_never_overwritten (request : Request B) (w0 : W)
    (path content : string) :
  In (path, content) (writes (trace (upload_file request w0))) ->
  content = DEFAULT_DOCKERFILE
  /\ writes (trace (upload_file request w0)) = [(path, content)]
  /\ exists file w1 w2 pjp,
       files_get "file" (files request) = Some file
       /\ storage_save (stream file) (save_path (filename file)) w0 = (Done tt, w1)
       /\ unpack_archive (save_path (filename file)) (extract_dir (filename file)) w1
          = (Done tt, w2)
       /\ manifest_at (filename file) w2 = Some pjp
       /\ path = OsPath.join (OsPath.dirname pjp) "Dockerfile"
       /\ lookup path w2 = None.
Proof.
  assert (Habsent : forall p (w2 : W), exists_at p w2 = false -> lookup p w2 = None).
  { intros p w2. unfold exists_at. destruct (lookup p w2); [discriminate|reflexivity]. }
  assert (Hmain : forall file pjp w2 w3 rest,
             at_build request file w0 w2 w3 pjp ->
             writes rest = [] ->
             In (path, content) (writes (until_build (filename file) pjp w2 ++ rest)) ->
             content = DEFAULT_DOCKERFILE
             /\ writes (until_build (filename file) pjp w2 ++ rest) = [(path, content)]
             /\ exists file w1 w2 pjp,
                  files_get "file" (files request) = Some file
                  /\ storage_save (stream file) (save_path (filename file)) w0
                     = (Done tt, w1)
                  /\ unpack_archive (save_path (filename file))
                       (extract_dir (filename file)) w1 = (Done tt, w2)
                  /\ manifest_at (filename file) w2 = Some pjp
                  /\ path = OsPath.join (OsPath.dirname pjp) "Dockerfile"
                  /\ lookup path w2 = None).
  { intros file pjp w2 w3 rest [[w1 (Hf & _ & Hs & Hu)] [Hm _]] Hrest.
    rewrite writes_app, writes_until_build, Hrest, app_nil_r.
    destruct (exists_at (dockerfile_of pjp) w2) eqn:Hex; [intros []|].
    intros [Heq|[]]. inversion Heq; subst path content.
    split; [reflexivity|]. split; [reflexivity|].
    exists file, w1, w2, pjp. repeat (split; [first [assumption|reflexivity]|]).
    apply Habsent. exact Hex. }
  destruct (upload_file_path request w0)
    as [Hf|file Hf|file Hf|file n w1 Hf|file n w1 w2 Hf
       |file w1 w2 Hun|file n pjp w1 w2 w3 Hun Hm Hex
       |file n pjp w2 w3 w4 Hat|file pjp b w2 w3 w4 Hat
       |file pjp b w2 w3 w4 Hat
       |file n pjp b w2 w3 w4 w5 Hat|file n pjp b k w2 w3 w4 w5 w6 Hat
       |file pjp b k r w2 w3 w4 w5 w6 Hat];
    unfold trace; cbn [snd];
    try (intros []; fail);
    try (apply (Hmain file pjp w2 w3 _ Hat); fail).
  - rewrite writes_app, writes_prefix_trace. simpl.
    intros [Heq|[]]. inversion Heq; subst path content.
    split; [reflexivity|]. split; [reflexivity|].
    destruct Hun as (Hf & _ & Hs & Hu).
    exists file, w1, w2, pjp. repeat (split; [first [assumption|reflexivity]|]).
    apply Habsent. exact Hex.
  - apply (Hmain file pjp w2 w3 _ Hat). reflexivity.
  - apply (Hmain file pjp w2 w3 _ Hat). reflexivity.
  - apply (Hmain file pjp w2 w3 _ Hat). apply (writes_log_streams _ _ b).
  - apply (Hmain file pjp w2 w3 _ Hat). apply writes_built_trace.
  - apply (Hmain file pjp w2 w3 _ Hat).
    rewrite writes_app, writes_built_trace. reflexivity.
  - apply (Hmain file pjp w2 w3 _ Hat). apply writes_deploy_trace.
Qed.

(** Every command of a run is the build, the removal or the run command
    made from the filename of the upload. *)
Lemma launched_commands (request : Request B) (file : FileStorage B) (w : W)
    (argv : list string) :
  files_get "file" (files request) = Some file ->
  In argv (commands (trace (upload_file request w))) ->
  (exists pjp, argv = build_argv (filename file) pjp)
  \/ argv = rm_argv (filename file)
  \/ argv = run_argv (filename file).
Proof.
  intros Hf.
  destruct (upload_file_path request w)
    as [Hf0|file0 Hf0|file0 Hf0|file0 n w1 Hf0|file0 n w1 w2 Hf0
       |file0 w1 w2 Hun|file0 n pjp w1 w2 w3 Hun
       |file0 n pjp w2 w3 w4 Hat|file0 pjp b w2 w3 w4 Hat
       |file0 pjp b w2 w3 w4 Hat
       |file0 n pjp b w2 w3 w4 w5 Hat|file0 n pjp b k w2 w3 w4 w5 w6 Hat
       |file0 pjp b k r w2 w3 w4 w5 w6 Hat];
    unfold trace; cbn [snd];
    try (intros []; fail);
    try (rewrite commands_app; intros []; fail);
    (assert (file0 = file)
       by (destruct Hat as [[w1 Hun] _]; destruct Hun as [Hf0 _]; congruence);
     subst file0);
    count_commands; simpl; intros Hin;
    repeat (destruct Hin as [Hin|Hin]; [subst argv; eauto|]); contradiction.
Qed.

(** [os.path.splitext] on a plain name [stem.ext]. *)
Lemma splitext_of_plain_name (stem ext : string) :
  Py.contains Py.sep (stem ++ String Py.extsep ext) = false ->
  Py.contains Py.extsep ext = false ->
  Py.all_chars Py.extsep stem = false ->
  OsPath.splitext (stem ++ String Py.extsep ext) = (stem, String Py.extsep ext).
Proof.
  intros Hs Hd Ha.
  unfold OsPath.splitext, OsPath.tail_from_last_sep, OsPath.head_to_last_sep.
  apply contains_rsplit1_none in Hs. rewrite Hs.
  rewrite (rsplit1_app _ stem ext Hd), Ha. reflexivity.
Qed.

(** C7, as the code has it. For an upload under a plain name [stem.ext] (no
    directory separator in the name, no dot in [ext], a stem that is not
    made of dots only), the image name is the stem lowercased followed by
    [-image] and the container name the stem lowercased followed by
    [-container]; on an ASCII stem lowercasing maps the letters A to Z to
    a to z and nothing else. The names are made from the filename alone:
    whatever the archive holds and whatever the world, every command the
    run launches and every 200 answer carry these two names. *)
Theorem names_follow_filename (request : Request B) (file : FileStorage B)
    (w : W) (stem ext : string) :
  files_get "file" (files request) = Some file ->
  filename file = stem ++ String Py.extsep ext ->
  Py.contains Py.sep (filename file) = false ->
  Py.contains Py.extsep ext = false ->
  Py.all_chars Py.extsep stem = false ->
  image_name (filename file) = str_lower stem ++ "-image"
  /\ container_name (filename file) = str_lower stem ++ "-container"
  /\ (Py.is_ascii stem = true ->
      image_name (filename file) = Py.lower stem ++ "-image"
      /\ container_name (filename file) = Py.lower stem ++ "-container")
  /\ (forall argv,
        In argv (commands (trace (upload_file request w))) ->
        (exists context,
            argv = ["docker"; "build"; "-t"; str_lower stem ++ "-image"; context])
        \/ argv = ["docker"; "rm"; "-f"; str_lower stem ++ "-container"]
        \/ argv = ["docker"; "run"; "-d"; "--name"; str_lower stem ++ "-container";
                   "-p"; "3000:3000"; str_lower stem ++ "-image"])
  /\ (forall body,
        outcome (upload_file request w) = Val (body, 200%Z) ->
        body
        = [("message", "File uploaded and Docker container started successfully");
           ("docker_image", str_lower stem ++ "-image");
           ("docker_container", str_lower stem ++ "-container")]).
Proof.
  intros Hf Hname Hs Hd Ha.
  assert (Hi : image_name (filename file) = str_lower stem ++ "-image").
  { unfold image_name. rewrite Hname in Hs |- *.
    rewrite (splitext_of_plain_name stem ext Hs Hd Ha). reflexivity. }
  assert (Hc : container_name (filename file) = str_lower stem ++ "-container").
  { unfold container_name. rewrite Hname in Hs |- *.
    rewrite (splitext_of_plain_name stem ext Hs Hd Ha). reflexivity. }
  split; [exact Hi|]. split; [exact Hc|]. split.
  { intros Hascii. rewrite Hi, Hc, (str_lower_ascii stem Hascii). auto. }
  split.
  - intros argv Hin.
    destruct (launched_commands request file w argv Hf Hin) as [[pjp E]|[E|E]];
      subst argv; unfold build_argv, rm_argv, run_argv; rewrite ?Hi, ?Hc; eauto.
  - intros body Hout.
    destruct (upload_file request w) as [[o w'] t] eqn:Hrun.
    unfold outcome in Hout. cbn [fst] in Hout. subst o.
    destruct (success_response request w w' body t Hrun) as (file' & Hf' & ->).
    assert (file' = file) by congruence. subst file'.
    unfold success_body. rewrite Hi, Hc. reflexivity.
Qed.

End Outcomes.

(** * Library calls that raise *)

Section Raising.
Context {W B : Type} {os : OS W B} {py : PyStr}.

(** X13. When saving the upload raises, the exception leaves the handler
    at once: the save is the only event, nothing is logged, unpacked or
    launched. *)
Theorem save_failure_propagates (request : Request B) (file : FileStorage B)
    (w0 w1 : W) (n : string) :
  files_get "file" (files request) = Some file ->
  has_accepted_extension (filename file) ->
  storage_save (stream file) (OsPath.join UPLOAD_FOLDER (filename file)) w0
  = (Failed n, w1) ->
  upload_file request w0
  = (Exc (LibraryError n), w1,
     [EvSave (OsPath.join UPLOAD_FOLDER (filename file))]).
Proof.
  intros Hf Hext Hs. apply allowed_file_iff in Hext.
  rewrite (upload_accepted request file Hf Hext).
  apply (bind_call_failed _ _ _ _ _ _ Hs).
Qed.

(** X14. When the build command cannot be launched at all (the [docker]
    executable is missing), the exception is no [CalledProcessError]: the
    [except] clause does not catch it, no 500 answer is made, and neither
    the removal nor the run is tried. *)
Theorem launch_failure_propagates (request : Request B) (file : FileStorage B)
    (w0 w1 w2 w3 w4 : W) (pjp n : string) :
  files_get "file" (files request) = Some file ->
  has_accepted_extension (filename file) ->
  storage_save (stream file) (save_path (filename file)) w0 = (Done tt, w1) ->
  unpack_archive (save_path (filename file)) (extract_dir (filename file)) w1
  = (Done tt, w2) ->
  manifest_at (filename file) w2 = Some pjp ->
  dockerfile_step (dockerfile_of pjp) w2 w3 ->
  spawn (build_argv (filename file) pjp) w3 = (Failed n, w4) ->
  outcome (upload_file request w0) = Exc (LibraryError n)
  /\ final_world (upload_file request w0) = w4
  /\ commands (trace (upload_file request w0)) = [build_argv (filename file) pjp].
Proof.
  intros Hf Hext Hs Hu Hm Hstep Hb. apply allowed_file_iff in Hext.
  rewrite (upload_located request file Hf Hext w0 w1 w2 Hs Hu pjp Hm).
  rewrite (bind_val _ _ _ _ _ _ (ensure_dockerfile_step _ _ _ Hstep)).
  rewrite prepend_prepend.
  assert (Hbr : build_and_run (filename file) pjp w3
                = (Exc (LibraryError n), w4, [EvRun (build_argv (filename file) pjp)])).
  { unfold build_and_run, try_except.
    erewrite bind_exc by (apply subprocess_run_raises; exact Hb). reflexivity. }
  rewrite Hbr. unfold prepend, outcome, final_world, trace. cbn [fst snd].
  repeat split.
  rewrite !commands_app, commands_ensure_trace. reflexivity.
Qed.

End Raising.

(** * Case *)

Lemma lower_char_idem (a : ascii) :
  Py.lower_char (Py.lower_char a) = Py.lower_char a.
Proof. destruct a as [[] [] [] [] [] [] [] []]; reflexivity. Qed.

Lemma lower_idem (s : string) : Py.lower (Py.lower s) = Py.lower s.
Proof.
  induction s as [|a s IH]; simpl; [reflexivity|].
  rewrite lower_char_idem, IH. reflexivity.
Qed.

Lemma lower_app (s t : string) : Py.lower (s ++ t) = Py.lower s ++ Py.lower t.
Proof.
  induction s as [|a s IH]; simpl; [reflexivity|]. rewrite IH. reflexivity.
Qed.

Lemma lower_char_sep (a : ascii) :
  Ascii.eqb (Py.lower_char a) Py.sep = Ascii.eqb a Py.sep.
Proof. destruct a as [[] [] [] [] [] [] [] []]; reflexivity. Qed.

(** Lowercasing commutes with splitting at a character that lowercasing
    neither makes nor removes. *)
Lemma rsplit1_lower (c : ascii) (s : string) :
  (forall a, Ascii.eqb (Py.lower_char a) c = Ascii.eqb a c) ->
  Py.rsplit1 c (Py.lower s)
  = match Py.rsplit1 c s with
    | Some (l, r) => Some (Py.lower l, Py.lower r)
    | None => None
    end.
Proof.
  intros Hc. induction s as [|a s IH]; simpl; [reflexivity|].
  rewrite IH. destruct (Py.rsplit1 c s) as [[l r]|]; [reflexivity|].
  rewrite Hc. destruct (Ascii.eqb a c); reflexivity.
Qed.

Lemma all_chars_lower (c : ascii) (s : string) :
  (forall a, Ascii.eqb (Py.lower_char a) c = Ascii.eqb a c) ->
  Py.all_chars c (Py.lower s) = Py.all_chars c s.
Proof.
  intros Hc. induction s as [|a s IH]; simpl; [reflexivity|].
  rewrite Hc, IH. reflexivity.
Qed.

Lemma allowed_file_lower (fname : string) :
  allowed_file (Py.lower fname) = allowed_file fname.
Proof.
  unfold allowed_file, Py.rsplit1_snd.
  rewrite contains_dot_lower, (rsplit1_lower _ _ lower_char_dot).
  destruct (Py.rsplit1 Py.extsep fname) as [[l r]|]; [|reflexivity].
  rewrite lower_idem. reflexivity.
Qed.

Lemma splitext_lower (p : string) :
  OsPath.splitext (Py.lower p)
  = (Py.lower (fst (OsPath.splitext p)), Py.lower (snd (OsPath.splitext p))).
Proof.
  unfold OsPath.splitext, OsPath.tail_from_last_sep, OsPath.head_to_last_sep.
  rewrite (rsplit1_lower _ p lower_char_sep).
  destruct (Py.rsplit1 Py.sep p) as [[l r]|].
  - rewrite (rsplit1_lower _ r lower_char_dot).
    destruct (Py.rsplit1 Py.extsep r) as [[stem ext]|]; [|reflexivity].
    rewrite (all_chars_lower _ stem lower_char_dot).
    destruct (Py.all_chars Py.extsep stem); [reflexivity|].
    simpl. rewrite !lower_app. reflexivity.
  - rewrite (rsplit1_lower _ p lower_char_dot).
    destruct (Py.rsplit1 Py.extsep p) as [[stem ext]|]; [|reflexivity].
    rewrite (all_chars_lower _ stem lower_char_dot).
    destruct (Py.all_chars Py.extsep stem); reflexivity.
Qed.

(** X1. [allowed_file] looks at a name up to case only: two names that
    differ in case alone are both accepted or both refused. *)
Theorem allowed_file_ignores_case (f1 f2 : string) :
  Py.lower f1 = Py.lower f2 -> allowed_file f1 = allowed_file f2.
Proof.
  intros H. rewrite <- (allowed_file_lower f1), <- (allowed_file_lower f2), H.
  reflexivity.
Qed.

(** X2. Only the text after the last dot counts: a name [stem.ext], with
    no dot in [ext], is accepted exactly when [ext] is [zip] up to case,
    whatever the stem holds (other dots and extensions included). *)
Theorem allowed_file_last_extension (stem ext : string) :
  Py.contains Py.extsep ext = false ->
  allowed_file (stem ++ String Py.extsep ext) = String.eqb (Py.lower ext) "zip".
Proof.
  intros Hd. unfold allowed_file, Py.rsplit1_snd.
  rewrite (rsplit1_app _ stem ext Hd).
  assert (Hc : Py.contains Py.extsep (stem ++ String Py.extsep ext) = true).
  { destruct (Py.contains Py.extsep (stem ++ String Py.extsep ext)) eqn:Ec;
      [reflexivity|].
    apply contains_rsplit1_none in Ec.
    rewrite (rsplit1_app _ stem ext Hd) in Ec. discriminate. }
  rewrite Hc. simpl. apply orb_false_r.
Qed.

Lemma is_ascii_app (s t : string) :
  Py.is_ascii (s ++ t) = Py.is_ascii s && Py.is_ascii t.
Proof.
  induction s as [|a s IH]; simpl; [reflexivity|].
  rewrite IH. apply andb_assoc.
Qed.

Lemma is_ascii_rsplit1 (c : ascii) (s l r : string) :
  Py.rsplit1 c s = Some (l, r) ->
  Py.is_ascii s = true ->
  Py.is_ascii l = true /\ Py.is_ascii r = true.
Proof.
  revert l r. induction s as [|a s IH]; simpl; intros l r; [discriminate|].
  intros H Ha. apply andb_true_iff in Ha. destruct Ha as [Ha Hs].
  destruct (Py.rsplit1 c s) as [[l' r']|].
  - inversion H; subst l r. destruct (IH l' r' eq_refl Hs) as [Hl Hr].
    simpl. rewrite Ha, Hl. auto.
  - destruct (Ascii.eqb a c); [|discriminate].
    inversion H; subst l r. auto.
Qed.

(** The root [os.path.splitext] gives for an ASCII name is ASCII. *)
Lemma is_ascii_splitext (p : string) :
  Py.is_ascii p = true -> Py.is_ascii (fst (OsPath.splitext p)) = true.
Proof.
  intros Hp. unfold OsPath.splitext, OsPath.tail_from_last_sep, OsPath.head_to_last_sep.
  destruct (Py.rsplit1 Py.sep p) as [[l r]|] eqn:Es.
  - destruct (is_ascii_rsplit1 _ _ _ _ Es Hp) as [Hl Hr].
    destruct (Py.rsplit1 Py.extsep r) as [[stem ext]|] eqn:Ee; [|exact Hp].
    destruct (Py.all_chars Py.extsep stem); [exact Hp|].
    destruct (is_ascii_rsplit1 _ _ _ _ Ee Hr) as [Hstem _].
    simpl. rewrite !is_ascii_app, Hl, Hstem. reflexivity.
  - destruct (Py.rsplit1 Py.extsep p) as [[stem ext]|] eqn:Ee; [|exact Hp].
    destruct (Py.all_chars Py.extsep stem); [exact Hp|].
    destruct (is_ascii_rsplit1 _ _ _ _ Ee Hp) as [Hstem _]. exact Hstem.
Qed.

(** X3. The image name and the container name of an ASCII filename are
    made from it up to case: uploads whose ASCII names differ in case
    alone share one image name and one container name. *)
Theorem names_ignore_case {py : PyStr} (f1 f2 : string) :
  Py.is_ascii f1 = true ->
  Py.is_ascii f2 = true ->
  Py.lower f1 = Py.lower f2 ->
  image_name f1 = image_name f2 /\ container_name f1 = container_name f2.
Proof.
  intros Ha1 Ha2 H.
  assert (Hroot : Py.lower (fst (OsPath.splitext f1))
                  = Py.lower (fst (OsPath.splitext f2))).
  { pose proof (splitext_lower f1) as H1. pose proof (splitext_lower f2) as H2.
    rewrite H in H1. rewrite H1 in H2. inversion H2. reflexivity. }
  unfold image_name, container_name.
  rewrite (str_lower_ascii _ (is_ascii_splitext _ Ha1)).
  rewrite (str_lower_ascii _ (is_ascii_splitext _ Ha2)).
  rewrite Hroot. split; reflexivity.
Qed.

(** * More about [find_file] *)

Section Finding.
Context {W B : Type} {os : OS W B} {py : PyStr}.

Lemma find_file_run (root_path fname : string) (w : W) :
  find_file root_path fname w
  = (Val (find_file_loop fname
            match lookup root_path w with
            | Some n => walk root_path n
            | None => []
            end),
     w, [EvWalk root_path]).
Proof.
  unfold find_file, os_walk. rewrite bind_query. reflexivity.
Qed.

Lemma mem_In (x : string) (xs : list string) : Py.mem x xs = true <-> In x xs.
Proof.
  unfold Py.mem. rewrite existsb_exists. split.
  - intros (y & Hy & He). apply String.eqb_eq in He. subst y. exact Hy.
  - intros H. exists x. split; [exact H|apply String.eqb_refl].
Qed.

Lemma find_file_loop_first (fname p : string)
    (triples : list (string * list string * list string)) :
  find_file_loop fname triples = Some p ->
  exists before dir ds fs after,
    triples = (before ++ (dir, ds, fs) :: after)%list
    /\ In fname fs
    /\ p = OsPath.join dir fname
    /\ forall r d f, In (r, d, f) before -> ~ In fname f.
Proof.
  induction triples as [|[[r ds] fs] l IH]; simpl; [discriminate|].
  destruct (Py.mem fname fs) eqn:E.
  - intros Hp. inversion Hp; subst p.
    exists [], r, ds, fs, l. split; [reflexivity|].
    split; [apply mem_In; exact E|]. split; [reflexivity|]. intros ? ? ? [].
  - intros Hp. destruct (IH Hp) as (before & dir & ds' & fs' & after & -> & Hin & Hq & Hb).
    exists ((r, ds, fs) :: before), dir, ds', fs', after.
    split; [reflexivity|]. split; [exact Hin|]. split; [exact Hq|].
    intros r0 d0 f0 [Heq|Hin0].
    + inversion Heq; subst. intros Hc. apply mem_In in Hc. congruence.
    + apply (Hb r0 d0 f0 Hin0).
Qed.

(** X4. [find_file] only reads: it never raises, leaves the world as it
    is, and its one event is the walk. It answers [None] exactly when the
    root is missing, is no directory, or is a tree without a regular file
    of that name at any depth. *)
Theorem find_file_reads_only (root_path fname : string) (w : W) :
  exists r : option string,
    find_file root_path fname w = (Val r, w, [EvWalk root_path])
    /\ (r = None
        <-> forall tree, lookup root_path w = Some tree ->
                         contains_file fname tree = false).
Proof.
  rewrite find_file_run. eexists. split; [reflexivity|].
  destruct (lookup root_path w) as [tree|].
  - rewrite find_file_loop_walk. split.
    + intros H t Ht. inversion Ht; subst. exact H.
    + intros H. apply H. reflexivity.
  - simpl. split; [discriminate|reflexivity].
Qed.

(** X5. When [find_file] answers a path, it is [join(dir, filename)] for
    the first directory [dir], in the top-down order of [os.walk], whose
    file list holds the name: no directory walked before it lists the
    file. *)
Theorem find_file_first_match (root_path fname p : string) (w w' : W)
    (t : list event) :
  find_file root_path fname w = (Val (Some p), w', t) ->
  exists tree before dir ds fs after,
    lookup root_path w = Some tree
    /\ walk root_path tree = (before ++ (dir, ds, fs) :: after)%list
    /\ In fname fs
    /\ p = OsPath.join dir fname
    /\ forall r d f, In (r, d, f) before -> ~ In fname f.
Proof.
  rewrite find_file_run. intros H.
  destruct (lookup root_path w) as [tree|] eqn:El; [|discriminate H].
  inversion H as [[Hp Hw Ht]]. clear H.
  destruct (find_file_loop_first _ _ _ Hp)
    as (before & dir & ds & fs & after & Hwalk & Hin & Hq & Hb).
  exists tree, before, dir, ds, fs, after.
  subst w'. repeat (split; [first [reflexivity|assumption]|]). exact Hb.
Qed.

End Finding.

(** * Names without separator stay inside *)

Lemma split_nonempty (c : ascii) (s : string) : Py.split c s <> [].
Proof.
  destruct s as [|a s]; simpl; [discriminate|].
  destruct (Ascii.eqb a c); [discriminate|].
  destruct (Py.split c s); discriminate.
Qed.

Lemma split_no_sep (c : ascii) (s : string) :
  Py.contains c s = false -> Py.split c s = [s].
Proof.
  induction s as [|a s IH]; simpl; [reflexivity|].
  intros H. apply orb_false_iff in H. destruct H as [Ha Hs].
  rewrite Ha, (IH Hs). reflexivity.
Qed.

Lemma split_app (c : ascii) (a b : string) :
  Py.split c (a ++ String c b) = (Py.split c a ++ Py.split c b)%list.
Proof.
  induction a as [|x a IH]; simpl.
  - rewrite Ascii.eqb_refl. reflexivity.
  - destruct (Ascii.eqb x c); [rewrite IH; reflexivity|].
    rewrite IH. pose proof (split_nonempty c a) as Hne.
    destruct (Py.split c a) as [|p ps]; [contradiction|reflexivity].
Qed.

(** A proper component: not empty, not [.], not [..], no separator. *)
Lemma parts_component (name : string) :
  Py.contains Py.sep name = false ->
  String.eqb name EmptyString = false ->
  String.eqb name "." = false ->
  Lexical.parts name = [name].
Proof.
  intros Hs He Hd. unfold Lexical.parts. rewrite (split_no_sep _ _ Hs).
  simpl. rewrite He, Hd. reflexivity.
Qed.

Lemma parts_app (a b : string) :
  Lexical.parts (a ++ String Py.sep b) = (Lexical.parts a ++ Lexical.parts b)%list.
Proof. unfold Lexical.parts. rewrite split_app, filter_app. reflexivity. Qed.

Lemma inside_folder (cwd : list string) (folder f name : string) :
  Py.startswith Py.sep folder = false ->
  Py.truthy folder = true ->
  Py.endswith Py.sep folder = false ->
  Lexical.parts folder = [f] ->
  String.eqb f ".." = false ->
  Py.contains Py.sep name = false ->
  String.eqb name EmptyString = false ->
  String.eqb name "." = false ->
  String.eqb name ".." = false ->
  lies_inside cwd folder (OsPath.join folder name) = true.
Proof.
  intros Hrel Ht He Hparts Hf Hs Hne Hd Hdd.
  assert (Hj : OsPath.join folder name = folder ++ String Py.sep name).
  { unfold OsPath.join. rewrite (startswith_contains _ _ Hs), Ht, He. reflexivity. }
  assert (Hrel' : Py.startswith Py.sep (folder ++ String Py.sep name) = false).
  { destruct folder; [discriminate Ht|exact Hrel]. }
  unfold lies_inside, Lexical.resolve. rewrite Hj, Hrel, Hrel'.
  rewrite parts_app, Hparts, (parts_component _ Hs Hne Hd).
  simpl. rewrite Hf, Hdd. simpl. rewrite rev_involutive.
  rewrite <- app_assoc. simpl.
  change (cwd ++ [f; name])%list with (cwd ++ [f] ++ [name])%list.
  rewrite app_assoc.
  replace (cwd ++ [f])%list with ((cwd ++ [f]) ++ [])%list at 1 by apply app_nil_r.
  rewrite is_prefix_app. reflexivity.
Qed.

Lemma plain_root (fname : string) :
  allowed_file fname = true ->
  Py.contains Py.sep fname = false ->
  Py.contains Py.sep (fst (OsPath.splitext fname)) = false
  /\ String.eqb (fst (OsPath.splitext fname)) EmptyString = false
  /\ String.eqb (fst (OsPath.splitext fname)) "." = false
  /\ String.eqb (fst (OsPath.splitext fname)) ".." = false.
Proof.
  intros Hok Hs.
  assert (Hwhole : Py.contains Py.sep fname = false
                   /\ String.eqb fname EmptyString = false
                   /\ String.eqb fname "." = false
                   /\ String.eqb fname ".." = false).
  { split; [exact Hs|].
    repeat split;
      match goal with |- String.eqb fname ?x = false =>
        destruct (String.eqb fname x) eqn:E; [|reflexivity];
        apply String.eqb_eq in E; subst fname; discriminate Hok end. }
  unfold OsPath.splitext, OsPath.tail_from_last_sep, OsPath.head_to_last_sep.
  apply contains_rsplit1_none in Hs. rewrite Hs.
  destruct (Py.rsplit1 Py.extsep fname) as [[stem ext]|] eqn:E; [|exact Hwhole].
  destruct (Py.all_chars Py.extsep stem) eqn:Ea; [exact Hwhole|].
  simpl. apply rsplit1_some in E. destruct E as [-> _].
  destruct Hwhole as [Hc _]. rewrite contains_app in Hc.
  apply orb_false_iff in Hc. destruct Hc as [Hc _].
  split; [exact Hc|].
  repeat split;
    match goal with |- String.eqb stem ?x = false =>
      destruct (String.eqb stem x) eqn:E; [|reflexivity];
      apply String.eqb_eq in E; subst stem; discriminate Ea end.
Qed.

(** X15. An accepted filename without a separator cannot leave the two
    folders: from whichever directory the server runs, the upload is saved
    inside the uploads folder and unpacked inside the builds folder. *)
Theorem plain_name_stays_inside (fname : string) (cwd : list string) :
  allowed_file fname = true ->
  Py.contains Py.sep fname = false ->
  lies_inside cwd UPLOAD_FOLDER (OsPath.join UPLOAD_FOLDER fname) = true
  /\ lies_inside cwd BUILD_FOLDER
       (OsPath.join BUILD_FOLDER (fst (OsPath.splitext fname))) = true.
Proof.
  intros Hok Hs.
  destruct (plain_root fname Hok Hs) as (Hrs & Hre & Hrd & Hrdd).
  split.
  - apply (inside_folder cwd UPLOAD_FOLDER "uploads" fname); try reflexivity;
      try exact Hs;
      match goal with |- String.eqb fname ?x = false =>
        destruct (String.eqb fname x) eqn:E; [|reflexivity];
        apply String.eqb_eq in E; subst fname; discriminate Hok end.
  - apply (inside_folder cwd BUILD_FOLDER "builds"); try reflexivity; assumption.
Qed.

(** * The further properties at work on the reference operating system *)

(** Two uploads named [App.zip], the manifest at the top of one archive and
    under [src/server] in the other: the names are [app-image] and
    [app-container] in both runs. *)
Lemma names_follow_filename_witness :
  manifest_at "App.zip" (final_world (upload_file Mixed.request Sim.fresh))
  = Some "./builds/App/package.json"
  /\ manifest_at "App.zip" (final_world (upload_file Mixed.deep_request Sim.fresh))
     = Some "./builds/App/src/server/package.json"
  /\ image_name (filename Mixed.file) = "app-image"
  /\ container_name (filename Mixed.file) = "app-container"
  /\ (forall argv,
        In argv (commands (trace (upload_file Mixed.deep_request Sim.fresh))) ->
        (exists context, argv = ["docker"; "build"; "-t"; "app-image"; context])
        \/ argv = ["docker"; "rm"; "-f"; "app-container"]
        \/ argv = ["docker"; "run"; "-d"; "--name"; "app-container";
                   "-p"; "3000:3000"; "app-image"])
  /\ (forall body,
        outcome (upload_file Mixed.request Sim.fresh) = Val (body, 200%Z) ->
        body
        = [("message", "File uploaded and Docker container started successfully");
           ("docker_image", "app-image");
           ("docker_container", "app-container")])
  /\ (forall body,
        outcome (upload_file Mixed.deep_request Sim.fresh) = Val (body, 200%Z) ->
        body
        = [("message", "File uploaded and Docker container started successfully");
           ("docker_image", "app-image");
           ("docker_container", "app-container")]).
Proof.
  destruct (names_follow_filename (os := Sim.sim_os) (py := ascii_names)
              Mixed.request Mixed.file Sim.fresh "App" "zip"
              eq_refl eq_refl eq_refl eq_refl eq_refl)
    as (_ & _ & Hascii & _ & Hbody).
  destruct (names_follow_filename (os := Sim.sim_os) (py := ascii_names)
              Mixed.deep_request Mixed.deep_file Sim.fresh "App" "zip"
              eq_refl eq_refl eq_refl eq_refl eq_refl)
    as (_ & _ & _ & Hcmd & Hdeep).
  destruct (Hascii eq_refl) as [Hi Hc].
  split; [reflexivity|]. split; [reflexivity|].
  split; [exact Hi|]. split; [exact Hc|].
  split; [exact Hcmd|]. split; [exact Hbody|exact Hdeep].
Defined.

(** [noapp.zip]: saved and unpacked, then 400; no command, no Dockerfile. *)
Lemma client_fault_before_docker_witness :
  outcome (upload_file Other.noapp Sim.fresh)
  = Val (error_body "package.json not found in the extracted ZIP.", 400%Z)
  /\ commands (trace (upload_file Other.noapp Sim.fresh)) = []
  /\ writes (trace (upload_file Other.noapp Sim.fresh)) = [].
Proof.
  assert (R : outcome (upload_file Other.noapp Sim.fresh)
              = Val (error_body "package.json not found in the extracted ZIP.", 400%Z))
    by (vm_compute; reflexivity).
  split; [exact R|].
  exact (client_fault_before_docker (os := Sim.sim_os) Other.noapp Sim.fresh _ R).
Defined.

(** [demo.zip]: the 200 answer stands on a build and a run that exited 0. *)
Lemma success_needs_build_and_run_witness :
  exists file pjp w3 w4 w5 b k r,
    files_get "file" (files Demo.request) = Some file
    /\ spawn (build_argv (filename file) pjp) w3 = (Done b, w4)
    /\ returncode b = 0%Z
    /\ spawn (rm_argv (filename file)) w4 = (Done k, w5)
    /\ spawn (run_argv (filename file)) w5
       = (Done r, final_world (upload_file Demo.request Sim.fresh))
    /\ returncode r = 0%Z
    /\ commands (trace (upload_file Demo.request Sim.fresh))
       = [build_argv (filename file) pjp; rm_argv (filename file);
          run_argv (filename file)].
Proof.
  assert (R : outcome (upload_file Demo.request Sim.fresh)
              = Val (success_body "demo.zip", 200%Z))
    by (vm_compute; reflexivity).
  exact (success_needs_build_and_run (os := Sim.sim_os) Demo.request Sim.fresh _ R).
Defined.

(** [x.zip] with its empty Dockerfile: the 500 answer carries the standard
    error of the build, which exited with 1. *)
Lemma server_error_means_docker_failed_witness :
  exists file pjp c wa,
    files_get "file" (files Broken.request) = Some file
    /\ error_body "Docker error: the Dockerfile (Dockerfile) cannot be empty"
       = error_body ("Docker error: " ++ stderr c)
    /\ returncode c <> 0%Z
    /\ ((spawn (build_argv (filename file) pjp) wa
         = (Done c, final_world (upload_file Broken.request Sim.busy))
         /\ commands (trace (upload_file Broken.request Sim.busy))
            = [build_argv (filename file) pjp])
        \/ (spawn (run_argv (filename file)) wa
            = (Done c, final_world (upload_file Broken.request Sim.busy))
            /\ commands (trace (upload_file Broken.request Sim.busy))
               = [build_argv (filename file) pjp; rm_argv (filename file);
                  run_argv (filename file)])).
Proof.
  assert (R : outcome (upload_file Broken.request Sim.busy)
              = Val (error_body
                       "Docker error: the Dockerfile (Dockerfile) cannot be empty",
                     500%Z))
    by (vm_compute; reflexivity).
  exact (server_error_means_docker_failed (os := Sim.sim_os)
           Broken.request Sim.busy _ R).
Defined.


(** [demo.zip]: the one write is the default Dockerfile next to the
    manifest, at a path that did not exist after unpacking. *)
Lemma dockerfile_never_overwritten_witness :
  writes (trace (upload_file Demo.request Sim.fresh))
  = [("./builds/demo/sub/pkg/Dockerfile", DEFAULT_DOCKERFILE)]
  /\ exists file w1 w2 pjp,
       files_get "file" (files Demo.request) = Some file
       /\ storage_save (stream file) (save_path (filename file)) Sim.fresh
          = (Done tt, w1)
       /\ unpack_archive (save_path (filename file)) (extract_dir (filename file)) w1
          = (Done tt, w2)
       /\ manifest_at (filename file) w2 = Some pjp
       /\ "./builds/demo/sub/pkg/Dockerfile"
          = OsPath.join (OsPath.dirname pjp) "Dockerfile"
       /\ lookup "./builds/demo/sub/pkg/Dockerfile" w2 = None.
Proof.
  assert (R : In ("./builds/demo/sub/pkg/Dockerfile", DEFAULT_DOCKERFILE)
                 (writes (trace (upload_file Demo.request Sim.fresh))))
    by (vm_compute; left; reflexivity).
  destruct (dockerfile_never_overwritten (os := Sim.sim_os)
              Demo.request Sim.fresh _ _ R) as (_ & Hw & Hex).
  split; [exact Hw|exact Hex].
Defined.

(** [nodir/x.zip]: the folder [uploads/nodir] does not exist, the save
    raises, and that is all. *)
Lemma save_failure_propagates_witness :
  upload_file nodir_request Sim.fresh
  = (Exc (LibraryError "OSError"), Sim.fresh, [EvSave "./uploads/nodir/x.zip"]).
Proof.
  apply (save_failure_propagates (os := Sim.sim_os) nodir_request nodir_file
           Sim.fresh Sim.fresh "OSError").
  - reflexivity.
  - exists "nodir/x", "zip". split; reflexivity.
  - reflexivity.
Defined.

(** [demo.zip] on the server without Docker: [FileNotFoundError] leaves
    the handler, after the Dockerfile was written. *)
Lemma launch_failure_propagates_witness :
  outcome (upload_file (os := no_docker_os) Demo.request Sim.fresh)
  = Exc (LibraryError "FileNotFoundError")
  /\ final_world (upload_file (os := no_docker_os) Demo.request Sim.fresh)
     = Demo.described
  /\ commands (trace (upload_file (os := no_docker_os) Demo.request Sim.fresh))
     = [["docker"; "build"; "-t"; "demo-image"; "./builds/demo/sub/pkg"]].
Proof.
  apply (launch_failure_propagates (os := no_docker_os) (py := ascii_names)
           Demo.request Demo.file
           Sim.fresh Demo.saved Demo.unpacked Demo.described Demo.described
           "./builds/demo/sub/pkg/package.json" "FileNotFoundError").
  - reflexivity.
  - exists "demo", "zip". split; reflexivity.
  - reflexivity.
  - reflexivity.
  - reflexivity.
  - reflexivity.
  - reflexivity.
Defined.

Lemma allowed_file_ignores_case_witness :
  allowed_file "Demo.ZIP" = allowed_file "demo.zip".
Proof. exact (allowed_file_ignores_case "Demo.ZIP" "demo.zip" eq_refl). Defined.

(** [report.zip.exe] is refused, [report.exe.zip] is accepted. *)
Lemma allowed_file_last_extension_witness :
  allowed_file "report.zip.exe" = false /\ allowed_file "report.exe.zip" = true.
Proof.
  split.
  - exact (allowed_file_last_extension "report.zip" "exe" eq_refl).
  - exact (allowed_file_last_extension "report.exe" "zip" eq_refl).
Defined.

Lemma names_ignore_case_witness :
  image_name "Demo.ZIP" = image_name "demo.zip"
  /\ container_name "Demo.ZIP" = container_name "demo.zip".
Proof.
  exact (names_ignore_case (py := ascii_names) "Demo.ZIP" "demo.zip"
           eq_refl eq_refl eq_refl).
Defined.

(** In the unpacked [demo.zip] two directories are walked before the one
    that lists the manifest. *)
Lemma find_file_first_match_witness :
  exists tree before dir ds fs after,
    lookup "./builds/demo" Demo.unpacked = Some tree
    /\ walk "./builds/demo" tree = (before ++ (dir, ds, fs) :: after)%list
    /\ In "package.json" fs
    /\ "./builds/demo/sub/pkg/package.json" = OsPath.join dir "package.json"
    /\ forall r d f, In (r, d, f) before -> ~ In "package.json" f.
Proof.
  exact (find_file_first_match (os := Sim.sim_os) "./builds/demo" "package.json"
           "./builds/demo/sub/pkg/package.json" Demo.unpacked Demo.unpacked
           [EvWalk "./builds/demo"] eq_refl).
Defined.

Lemma plain_name_stays_inside_witness :
  lies_inside ["srv"; "app"] UPLOAD_FOLDER "./uploads/demo.zip" = true
  /\ lies_inside ["srv"; "app"] BUILD_FOLDER "./builds/demo" = true.
Proof.
  exact (plain_name_stays_inside "demo.zip" ["srv"; "app"] eq_refl eq_refl).
Defined.

(** For [demo.zip] the build context is [./builds/demo/sub/pkg]. *)
Lemma build_context_is_manifest_directory_witness :
  exists dir ds fs,
    In (dir, ds, fs) (walk (extract_dir "demo.zip") Demo.tree)
    /\ In "package.json" fs
    /\ located_manifest (extract_dir "demo.zip") Demo.tree
       = OsPath.join dir "package.json"
    /\ OsPath.dirname (located_manifest (extract_dir "demo.zip") Demo.tree) = dir
    /\ dockerfile_of (located_manifest (extract_dir "demo.zip") Demo.tree)
       = OsPath.join dir "Dockerfile".
Proof.
  exact (build_context_is_manifest_directory "demo.zip" Demo.tree
           eq_refl eq_refl eq_refl).
Defined.
